(** * ImageViewer (src/src/image-zoom/image-zoom.component.tsx): gesture handling

    A shallow embedding of the [ImageViewer] component: its instance fields
    become a [State] record, its props a [Props] record, and each handler of
    the pan responder (and each public method) a function on [State].

    Modelling conventions.
    - JavaScript numbers are modelled as exact rationals [Q]; an optional
      numeric prop that is absent is modelled by [0], which is what the
      source's [x || 0] reads it as.
    - [Animated.Value#setValue] writes the [animated*] fields of [State];
      [Animated.timing(..).start()] appends an [Animation] to [animations]
      (the tween itself is run by the host and is not modelled).
    - A prop callback is present when its [has_*] flag is set; calling it
      appends an [Emit] to [emitted].
    - A pending [setTimeout] is [Some payload]; [clearTimeout] makes it
      [None]. Firing a timer is an event of [step] below.
    - [new Date().getTime()] is the [now] argument of the grant handler. *)

From Stdlib Require Import QArith Qabs Qminmax Qround Arith Bool List String Lia.
Import ListNotations.
Open Scope Q_scope.

(** ** Data model *)

(** The payload handed to onClick / onLongPress / onDoubleClick. *)
Record ClickInfo : Type := mkClickInfo {
  ci_locationX : Q;
  ci_locationY : Q;
  ci_pageX : Q;
  ci_pageY : Q
}.

(** One entry of [evt.nativeEvent.changedTouches]. *)
Record Touch : Type := mkTouch {
  t_pageX : Q;
  t_pageY : Q;
  t_locationX : Q;
  t_locationY : Q
}.

(** [evt.nativeEvent]. *)
Record NativeEvent : Type := mkNativeEvent {
  changedTouches : list Touch;
  ne_locationX : Q;
  ne_locationY : Q;
  ne_pageX : Q;
  ne_pageY : Q
}.

(** The PanResponder [gestureState] fields read by the component. *)
Record GestureState : Type := mkGestureState {
  gs_dx : Q;
  gs_dy : Q;
  gs_vx : Q
}.

(** [ICenterOn]. *)
Record ICenterOn : Type := mkCenterOn {
  co_x : Q;
  co_y : Q;
  co_scale : Q;
  co_duration : Q
}.

(** [ImageZoomProps], as far as the component reads it. *)
Record Props : Type := mkProps {
  cropWidth : Q;
  cropHeight : Q;
  imageWidth : Q;
  imageHeight : Q;
  panToMove : bool;
  pinchToZoom : bool;
  enableDoubleClickZoom : bool;
  enableCenterFocus : bool;
  enableSwipeDown : bool;
  swipeDownThreshold : Q;
  maxOverflow : Q;
  minScale : Q;
  maxScale : Q;
  clickDistance : Q;
  doubleClickInterval : Q;
  has_onLongPress : bool;
  has_onDoubleClick : bool;
  has_onClick : bool;
  has_horizontalOuterRangeOffset : bool;
  has_onSwipeDown : bool;
  has_responderRelease : bool;
  has_onMove : bool;
  centerOn : option ICenterOn
}.

(** The three [Animated.Value]s of the component. *)
Inductive AnimField : Type := AnimScale | AnimPositionX | AnimPositionY.

(** A started [Animated.timing]: the value it drives, [toValue], [duration]. *)
Record Animation : Type := mkAnimation {
  an_field : AnimField;
  an_toValue : Q;
  an_duration : Q
}.

(** Calls of the prop callbacks. *)
Inductive Emit : Type :=
| EmitLongPress (c : ClickInfo)
| EmitDoubleClick (c : ClickInfo)
| EmitClick (c : ClickInfo)
| EmitHorizontalOuterRangeOffset (v : Q)
| EmitSwipeDown
| EmitResponderRelease (vx sc : Q)
| EmitMove (type : string) (px py sc zoomCurrentDistance : Q).

(** The instance fields of [ImageViewer]. *)
#[projections(primitive)]
Record State : Type := mkState {
  lastPositionX : option Q;
  positionX : Q;
  animatedPositionX : Q;
  lastPositionY : option Q;
  positionY : Q;
  animatedPositionY : Q;
  scale : Q;
  animatedScale : Q;
  zoomLastDistance : option Q;
  zoomCurrentDistance : Q;
  lastTouchStartTime : Q;
  horizontalWholeOuterCounter : Q;
  swipeDownOffset : Q;
  horizontalWholeCounter : Q;
  verticalWholeCounter : Q;
  centerDiffX : Q;
  centerDiffY : Q;
  singleClickTimeout : option ClickInfo;
  longPressTimeout : option ClickInfo;
  lastClickTime : Q;
  doubleClickX : Q;
  doubleClickY : Q;
  isDoubleClick : bool;
  isLongPress : bool;
  isHorizontalWrap : bool;
  animations : list Animation;
  emitted : list Emit
}.

Definition set_lastPositionX (v : option Q) (s : State) : State :=
  mkState v (positionX s) (animatedPositionX s) (lastPositionY s) (positionY s) (animatedPositionY s) (scale s) (animatedScale s) (zoomLastDistance s) (zoomCurrentDistance s) (lastTouchStartTime s) (horizontalWholeOuterCounter s) (swipeDownOffset s) (horizontalWholeCounter s) (verticalWholeCounter s) (centerDiffX s) (centerDiffY s) (singleClickTimeout s) (longPressTimeout s) (lastClickTime s) (doubleClickX s) (doubleClickY s) (isDoubleClick s) (isLongPress s) (isHorizontalWrap s) (animations s) (emitted s).
Definition set_positionX (v : Q) (s : State) : State :=
  mkState (lastPositionX s) v (animatedPositionX s) (lastPositionY s) (positionY s) (animatedPositionY s) (scale s) (animatedScale s) (zoomLastDistance s) (zoomCurrentDistance s) (lastTouchStartTime s) (horizontalWholeOuterCounter s) (swipeDownOffset s) (horizontalWholeCounter s) (verticalWholeCounter s) (centerDiffX s) (centerDiffY s) (singleClickTimeout s) (longPressTimeout s) (lastClickTime s) (doubleClickX s) (doubleClickY s) (isDoubleClick s) (isLongPress s) (isHorizontalWrap s) (animations s) (emitted s).
Definition set_animatedPositionX (v : Q) (s : State) : State :=
  mkState (lastPositionX s) (positionX s) v (lastPositionY s) (positionY s) (animatedPositionY s) (scale s) (animatedScale s) (zoomLastDistance s) (zoomCurrentDistance s) (lastTouchStartTime s) (horizontalWholeOuterCounter s) (swipeDownOffset s) (horizontalWholeCounter s) (verticalWholeCounter s) (centerDiffX s) (centerDiffY s) (singleClickTimeout s) (longPressTimeout s) (lastClickTime s) (doubleClickX s) (doubleClickY s) (isDoubleClick s) (isLongPress s) (isHorizontalWrap s) (animations s) (emitted s).
Definition set_lastPositionY (v : option Q) (s : State) : State :=
  mkState (lastPositionX s) (positionX s) (animatedPositionX s) v (positionY s) (animatedPositionY s) (scale s) (animatedScale s) (zoomLastDistance s) (zoomCurrentDistance s) (lastTouchStartTime s) (horizontalWholeOuterCounter s) (swipeDownOffset s) (horizontalWholeCounter s) (verticalWholeCounter s) (centerDiffX s) (centerDiffY s) (singleClickTimeout s) (longPressTimeout s) (lastClickTime s) (doubleClickX s) (doubleClickY s) (isDoubleClick s) (isLongPress s) (isHorizontalWrap s) (animations s) (emitted s).
Definition set_positionY (v : Q) (s : State) : State :=
  mkState (lastPositionX s) (positionX s) (animatedPositionX s) (lastPositionY s) v (animatedPositionY s) (scale s) (animatedScale s) (zoomLastDistance s) (zoomCurrentDistance s) (lastTouchStartTime s) (horizontalWholeOuterCounter s) (swipeDownOffset s) (horizontalWholeCounter s) (verticalWholeCounter s) (centerDiffX s) (centerDiffY s) (singleClickTimeout s) (longPressTimeout s) (lastClickTime s) (doubleClickX s) (doubleClickY s) (isDoubleClick s) (isLongPress s) (isHorizontalWrap s) (animations s) (emitted s).
Definition set_animatedPositionY (v : Q) (s : State) : State :=
  mkState (lastPositionX s) (positionX s) (animatedPositionX s) (lastPositionY s) (positionY s) v (scale s) (animatedScale s) (zoomLastDistance s) (zoomCurrentDistance s) (lastTouchStartTime s) (horizontalWholeOuterCounter s) (swipeDownOffset s) (horizontalWholeCounter s) (verticalWholeCounter s) (centerDiffX s) (centerDiffY s) (singleClickTimeout s) (longPressTimeout s) (lastClickTime s) (doubleClickX s) (doubleClickY s) (isDoubleClick s) (isLongPress s) (isHorizontalWrap s) (animations s) (emitted s).
Definition set_scale (v : Q) (s : State) : State :=
  mkState (lastPositionX s) (positionX s) (animatedPositionX s) (lastPositionY s) (positionY s) (animatedPositionY s) v (animatedScale s) (zoomLastDistance s) (zoomCurrentDistance s) (lastTouchStartTime s) (horizontalWholeOuterCounter s) (swipeDownOffset s) (horizontalWholeCounter s) (verticalWholeCounter s) (centerDiffX s) (centerDiffY s) (singleClickTimeout s) (longPressTimeout s) (lastClickTime s) (doubleClickX s) (doubleClickY s) (isDoubleClick s) (isLongPress s) (isHorizontalWrap s) (animations s) (emitted s).
Definition set_animatedScale (v : Q) (s : State) : State :=
  mkState (lastPositionX s) (positionX s) (animatedPositionX s) (lastPositionY s) (positionY s) (animatedPositionY s) (scale s) v (zoomLastDistance s) (zoomCurrentDistance s) (lastTouchStartTime s) (horizontalWholeOuterCounter s) (swipeDownOffset s) (horizontalWholeCounter s) (verticalWholeCounter s) (centerDiffX s) (centerDiffY s) (singleClickTimeout s) (longPressTimeout s) (lastClickTime s) (doubleClickX s) (doubleClickY s) (isDoubleClick s) (isLongPress s) (isHorizontalWrap s) (animations s) (emitted s).
Definition set_zoomLastDistance (v : option Q) (s : State) : State :=
  mkState (lastPositionX s) (positionX s) (animatedPositionX s) (lastPositionY s) (positionY s) (animatedPositionY s) (scale s) (animatedScale s) v (zoomCurrentDistance s) (lastTouchStartTime s) (horizontalWholeOuterCounter s) (swipeDownOffset s) (horizontalWholeCounter s) (verticalWholeCounter s) (centerDiffX s) (centerDiffY s) (singleClickTimeout s) (longPressTimeout s) (lastClickTime s) (doubleClickX s) (doubleClickY s) (isDoubleClick s) (isLongPress s) (isHorizontalWrap s) (animations s) (emitted s).
Definition set_zoomCurrentDistance (v : Q) (s : State) : State :=
  mkState (lastPositionX s) (positionX s) (animatedPositionX s) (lastPositionY s) (positionY s) (animatedPositionY s) (scale s) (animatedScale s) (zoomLastDistance s) v (lastTouchStartTime s) (horizontalWholeOuterCounter s) (swipeDownOffset s) (horizontalWholeCounter s) (verticalWholeCounter s) (centerDiffX s) (centerDiffY s) (singleClickTimeout s) (longPressTimeout s) (lastClickTime s) (doubleClickX s) (doubleClickY s) (isDoubleClick s) (isLongPress s) (isHorizontalWrap s) (animations s) (emitted s).
Definition set_lastTouchStartTime (v : Q) (s : State) : State :=
  mkState (lastPositionX s) (positionX s) (animatedPositionX s) (lastPositionY s) (positionY s) (animatedPositionY s) (scale s) (animatedScale s) (zoomLastDistance s) (zoomCurrentDistance s) v (horizontalWholeOuterCounter s) (swipeDownOffset s) (horizontalWholeCounter s) (verticalWholeCounter s) (centerDiffX s) (centerDiffY s) (singleClickTimeout s) (longPressTimeout s) (lastClickTime s) (doubleClickX s) (doubleClickY s) (isDoubleClick s) (isLongPress s) (isHorizontalWrap s) (animations s) (emitted s).
Definition set_horizontalWholeOuterCounter (v : Q) (s : State) : State :=
  mkState (lastPositionX s) (positionX s) (animatedPositionX s) (lastPositionY s) (positionY s) (animatedPositionY s) (scale s) (animatedScale s) (zoomLastDistance s) (zoomCurrentDistance s) (lastTouchStartTime s) v (swipeDownOffset s) (horizontalWholeCounter s) (verticalWholeCounter s) (centerDiffX s) (centerDiffY s) (singleClickTimeout s) (longPressTimeout s) (lastClickTime s) (doubleClickX s) (doubleClickY s) (isDoubleClick s) (isLongPress s) (isHorizontalWrap s) (animations s) (emitted s).
Definition set_swipeDownOffset (v : Q) (s : State) : State :=
  mkState (lastPositionX s) (positionX s) (animatedPositionX s) (lastPositionY s) (positionY s) (animatedPositionY s) (scale s) (animatedScale s) (zoomLastDistance s) (zoomCurrentDistance s) (lastTouchStartTime s) (horizontalWholeOuterCounter s) v (horizontalWholeCounter s) (verticalWholeCounter s) (centerDiffX s) (centerDiffY s) (singleClickTimeout s) (longPressTimeout s) (lastClickTime s) (doubleClickX s) (doubleClickY s) (isDoubleClick s) (isLongPress s) (isHorizontalWrap s) (animations s) (emitted s).
Definition set_horizontalWholeCounter (v : Q) (s : State) : State :=
  mkState (lastPositionX s) (positionX s) (animatedPositionX s) (lastPositionY s) (positionY s) (animatedPositionY s) (scale s) (animatedScale s) (zoomLastDistance s) (zoomCurrentDistance s) (lastTouchStartTime s) (horizontalWholeOuterCounter s) (swipeDownOffset s) v (verticalWholeCounter s) (centerDiffX s) (centerDiffY s) (singleClickTimeout s) (longPressTimeout s) (lastClickTime s) (doubleClickX s) (doubleClickY s) (isDoubleClick s) (isLongPress s) (isHorizontalWrap s) (animations s) (emitted s).
Definition set_verticalWholeCounter (v : Q) (s : State) : State :=
  mkState (lastPositionX s) (positionX s) (animatedPositionX s) (lastPositionY s) (positionY s) (animatedPositionY s) (scale s) (animatedScale s) (zoomLastDistance s) (zoomCurrentDistance s) (lastTouchStartTime s) (horizontalWholeOuterCounter s) (swipeDownOffset s) (horizontalWholeCounter s) v (centerDiffX s) (centerDiffY s) (singleClickTimeout s) (longPressTimeout s) (lastClickTime s) (doubleClickX s) (doubleClickY s) (isDoubleClick s) (isLongPress s) (isHorizontalWrap s) (animations s) (emitted s).
Definition set_centerDiffX (v : Q) (s : State) : State :=
  mkState (lastPositionX s) (positionX s) (animatedPositionX s) (lastPositionY s) (positionY s) (animatedPositionY s) (scale s) (animatedScale s) (zoomLastDistance s) (zoomCurrentDistance s) (lastTouchStartTime s) (horizontalWholeOuterCounter s) (swipeDownOffset s) (horizontalWholeCounter s) (verticalWholeCounter s) v (centerDiffY s) (singleClickTimeout s) (longPressTimeout s) (lastClickTime s) (doubleClickX s) (doubleClickY s) (isDoubleClick s) (isLongPress s) (isHorizontalWrap s) (animations s) (emitted s).
Definition set_centerDiffY (v : Q) (s : State) : State :=
  mkState (lastPositionX s) (positionX s) (animatedPositionX s) (lastPositionY s) (positionY s) (animatedPositionY s) (scale s) (animatedScale s) (zoomLastDistance s) (zoomCurrentDistance s) (lastTouchStartTime s) (horizontalWholeOuterCounter s) (swipeDownOffset s) (horizontalWholeCounter s) (verticalWholeCounter s) (centerDiffX s) v (singleClickTimeout s) (longPressTimeout s) (lastClickTime s) (doubleClickX s) (doubleClickY s) (isDoubleClick s) (isLongPress s) (isHorizontalWrap s) (animations s) (emitted s).
Definition set_singleClickTimeout (v : option ClickInfo) (s : State) : State :=
  mkState (lastPositionX s) (positionX s) (animatedPositionX s) (lastPositionY s) (positionY s) (animatedPositionY s) (scale s) (animatedScale s) (zoomLastDistance s) (zoomCurrentDistance s) (lastTouchStartTime s) (horizontalWholeOuterCounter s) (swipeDownOffset s) (horizontalWholeCounter s) (verticalWholeCounter s) (centerDiffX s) (centerDiffY s) v (longPressTimeout s) (lastClickTime s) (doubleClickX s) (doubleClickY s) (isDoubleClick s) (isLongPress s) (isHorizontalWrap s) (animations s) (emitted s).
Definition set_longPressTimeout (v : option ClickInfo) (s : State) : State :=
  mkState (lastPositionX s) (positionX s) (animatedPositionX s) (lastPositionY s) (positionY s) (animatedPositionY s) (scale s) (animatedScale s) (zoomLastDistance s) (zoomCurrentDistance s) (lastTouchStartTime s) (horizontalWholeOuterCounter s) (swipeDownOffset s) (horizontalWholeCounter s) (verticalWholeCounter s) (centerDiffX s) (centerDiffY s) (singleClickTimeout s) v (lastClickTime s) (doubleClickX s) (doubleClickY s) (isDoubleClick s) (isLongPress s) (isHorizontalWrap s) (animations s) (emitted s).
Definition set_lastClickTime (v : Q) (s : State) : State :=
  mkState (lastPositionX s) (positionX s) (animatedPositionX s) (lastPositionY s) (positionY s) (animatedPositionY s) (scale s) (animatedScale s) (zoomLastDistance s) (zoomCurrentDistance s) (lastTouchStartTime s) (horizontalWholeOuterCounter s) (swipeDownOffset s) (horizontalWholeCounter s) (verticalWholeCounter s) (centerDiffX s) (centerDiffY s) (singleClickTimeout s) (longPressTimeout s) v (doubleClickX s) (doubleClickY s) (isDoubleClick s) (isLongPress s) (isHorizontalWrap s) (animations s) (emitted s).
Definition set_doubleClickX (v : Q) (s : State) : State :=
  mkState (lastPositionX s) (positionX s) (animatedPositionX s) (lastPositionY s) (positionY s) (animatedPositionY s) (scale s) (animatedScale s) (zoomLastDistance s) (zoomCurrentDistance s) (lastTouchStartTime s) (horizontalWholeOuterCounter s) (swipeDownOffset s) (horizontalWholeCounter s) (verticalWholeCounter s) (centerDiffX s) (centerDiffY s) (singleClickTimeout s) (longPressTimeout s) (lastClickTime s) v (doubleClickY s) (isDoubleClick s) (isLongPress s) (isHorizontalWrap s) (animations s) (emitted s).
Definition set_doubleClickY (v : Q) (s : State) : State :=
  mkState (lastPositionX s) (positionX s) (animatedPositionX s) (lastPositionY s) (positionY s) (animatedPositionY s) (scale s) (animatedScale s) (zoomLastDistance s) (zoomCurrentDistance s) (lastTouchStartTime s) (horizontalWholeOuterCounter s) (swipeDownOffset s) (horizontalWholeCounter s) (verticalWholeCounter s) (centerDiffX s) (centerDiffY s) (singleClickTimeout s) (longPressTimeout s) (lastClickTime s) (doubleClickX s) v (isDoubleClick s) (isLongPress s) (isHorizontalWrap s) (animations s) (emitted s).
Definition set_isDoubleClick (v : bool) (s : State) : State :=
  mkState (lastPositionX s) (positionX s) (animatedPositionX s) (lastPositionY s) (positionY s) (animatedPositionY s) (scale s) (animatedScale s) (zoomLastDistance s) (zoomCurrentDistance s) (lastTouchStartTime s) (horizontalWholeOuterCounter s) (swipeDownOffset s) (horizontalWholeCounter s) (verticalWholeCounter s) (centerDiffX s) (centerDiffY s) (singleClickTimeout s) (longPressTimeout s) (lastClickTime s) (doubleClickX s) (doubleClickY s) v (isLongPress s) (isHorizontalWrap s) (animations s) (emitted s).
Definition set_isLongPress (v : bool) (s : State) : State :=
  mkState (lastPositionX s) (positionX s) (animatedPositionX s) (lastPositionY s) (positionY s) (animatedPositionY s) (scale s) (animatedScale s) (zoomLastDistance s) (zoomCurrentDistance s) (lastTouchStartTime s) (horizontalWholeOuterCounter s) (swipeDownOffset s) (horizontalWholeCounter s) (verticalWholeCounter s) (centerDiffX s) (centerDiffY s) (singleClickTimeout s) (longPressTimeout s) (lastClickTime s) (doubleClickX s) (doubleClickY s) (isDoubleClick s) v (isHorizontalWrap s) (animations s) (emitted s).
Definition set_isHorizontalWrap (v : bool) (s : State) : State :=
  mkState (lastPositionX s) (positionX s) (animatedPositionX s) (lastPositionY s) (positionY s) (animatedPositionY s) (scale s) (animatedScale s) (zoomLastDistance s) (zoomCurrentDistance s) (lastTouchStartTime s) (horizontalWholeOuterCounter s) (swipeDownOffset s) (horizontalWholeCounter s) (verticalWholeCounter s) (centerDiffX s) (centerDiffY s) (singleClickTimeout s) (longPressTimeout s) (lastClickTime s) (doubleClickX s) (doubleClickY s) (isDoubleClick s) (isLongPress s) v (animations s) (emitted s).
Definition set_animations (v : list Animation) (s : State) : State :=
  mkState (lastPositionX s) (positionX s) (animatedPositionX s) (lastPositionY s) (positionY s) (animatedPositionY s) (scale s) (animatedScale s) (zoomLastDistance s) (zoomCurrentDistance s) (lastTouchStartTime s) (horizontalWholeOuterCounter s) (swipeDownOffset s) (horizontalWholeCounter s) (verticalWholeCounter s) (centerDiffX s) (centerDiffY s) (singleClickTimeout s) (longPressTimeout s) (lastClickTime s) (doubleClickX s) (doubleClickY s) (isDoubleClick s) (isLongPress s) (isHorizontalWrap s) v (emitted s).
Definition set_emitted (v : list Emit) (s : State) : State :=
  mkState (lastPositionX s) (positionX s) (animatedPositionX s) (lastPositionY s) (positionY s) (animatedPositionY s) (scale s) (animatedScale s) (zoomLastDistance s) (zoomCurrentDistance s) (lastTouchStartTime s) (horizontalWholeOuterCounter s) (swipeDownOffset s) (horizontalWholeCounter s) (verticalWholeCounter s) (centerDiffX s) (centerDiffY s) (singleClickTimeout s) (longPressTimeout s) (lastClickTime s) (doubleClickX s) (doubleClickY s) (isDoubleClick s) (isLongPress s) (isHorizontalWrap s) (animations s) v.

(** The field initialisers of the class. *)
Definition initState : State :=
  mkState None 0 0 None 0 0 1 1 None 0 0 0 0 0 0 0 0 None None 0 0 0
          false false false [] [].

(** ** Helpers *)

(** [a < b] on numbers. *)
Definition Qltb (a b : Q) : bool := negb (Qle_bool b a).

(** [this.props.cb && this.props.cb(..)]: call a callback if present. *)
Definition emit_if (present : bool) (e : Emit) (s : State) : State :=
  if present then set_emitted (emitted s ++ [e]) s else s.

(** [Animated.timing(value, {toValue, duration}).start()]. *)
Definition start_timing (f : AnimField) (toValue duration : Q) (s : State) : State :=
  set_animations (animations s ++ [mkAnimation f toValue duration]) s.

(** [imageDidMove(type)]. *)
Definition imageDidMove (p : Props) (type : string) (s : State) : State :=
  emit_if (has_onMove p)
    (EmitMove type (positionX s) (positionY s) (scale s) (zoomCurrentDistance s)) s.

(** [Number(Math.sqrt(d2).toFixed(1))] for [d2 >= 0]: the multiple of 1/10
    nearest to the square root, ties rounded up as [toFixed] does. With
    [k = floor (sqrt (400 d2))], the nearest integer to [10 sqrt d2] is
    [floor ((k + 1) / 2)]; [floor (sqrt x) = Z.sqrt (floor x)]. *)
Definition sqrt_toFixed1 (d2 : Q) : Q :=
  let k := Z.sqrt (Qfloor (400 * d2)) in
  inject_Z (Z.div (k + 1) 2) / 10.

(** ** onPanResponderGrant *)

(** The zoom toggle of a double click (the [enableDoubleClickZoom] block of
    onPanResponderGrant, before its [imageDidMove] and animations). *)
Definition doubleClickZoom (p : Props) (s : State) : State :=
  if Qltb 1 (scale s) || Qltb (scale s) 1 then
    (* return to place *)
    let s := set_scale 1 s in
    let s := set_positionX 0 s in
    set_positionY 0 s
  else
    let beforeScale := scale s in
    let s := set_scale 2 s in
    let diffScale := scale s - beforeScale in
    let s := set_positionX ((cropWidth p / 2 - doubleClickX s) * diffScale / scale s) s in
    set_positionY ((cropHeight p / 2 - doubleClickY s) * diffScale / scale s) s.

(** [Animated.parallel([scale, positionX, positionY timings]).start()]. *)
Definition start_parallel3 (duration : Q) (s : State) : State :=
  let s := start_timing AnimScale (scale s) duration s in
  let s := start_timing AnimPositionX (positionX s) duration s in
  start_timing AnimPositionY (positionY s) duration s.

(** Start gesture operation: the fields reset by every grant. *)
Definition grantReset (now : Q) (s : State) : State :=
  let s := set_lastPositionX None s in
  let s := set_lastPositionY None s in
  let s := set_zoomLastDistance None s in
  let s := set_horizontalWholeCounter 0 s in
  let s := set_verticalWholeCounter 0 s in
  let s := set_lastTouchStartTime now s in
  let s := set_isDoubleClick false s in
  let s := set_isLongPress false s in
  let s := set_isHorizontalWrap false s in
  (* Any gesture starts, clears the click timer *)
  set_singleClickTimeout None s.

(** With two touches, record the offset of their midpoint from the centre. *)
Definition grantCenterDiff (p : Props) (ev : NativeEvent) (s : State) : State :=
  match changedTouches ev with
  | t0 :: t1 :: _ =>
      let centerX := (t_pageX t0 + t_pageX t1) / 2 in
      let s := set_centerDiffX (centerX - cropWidth p / 2) s in
      let centerY := (t_pageY t0 + t_pageY t1) / 2 in
      set_centerDiffY (centerY - cropHeight p / 2) s
  | _ => s
  end.

(** Calculate long press: (re)arm the long-press timer. *)
Definition armLongPress (ev : NativeEvent) (s : State) : State :=
  set_longPressTimeout
    (Some (mkClickInfo (ne_locationX ev) (ne_locationY ev) (ne_pageX ev) (ne_pageY ev))) s.

(** The double-click branch of a one-finger grant. [None] is the TypeError
    of reading [changedTouches[0].pageX] on an empty touch list. *)
Definition grantDoubleClick (p : Props) (ev : NativeEvent) (s : State) : option State :=
  match changedTouches ev with
  | [] => None
  | t0 :: _ =>
      let s := set_lastClickTime 0 s in
      let s := set_doubleClickX (t_pageX t0) s in
      let s := set_doubleClickY (t_pageY t0) s in
      let s := emit_if (has_onDoubleClick p)
                 (EmitDoubleClick (mkClickInfo (t_locationX t0) (t_locationY t0)
                                     (doubleClickX s) (doubleClickY s))) s in
      (* Cancel long press *)
      let s := set_longPressTimeout None s in
      let s := set_isDoubleClick true s in
      if enableDoubleClickZoom p then
        let s := doubleClickZoom p s in
        let s := imageDidMove p "centerOn" s in
        Some (start_parallel3 100 s)
      else Some s
  end.

(** onPanResponderGrant. *)
Definition onPanResponderGrant (p : Props) (now : Q) (ev : NativeEvent) (s : State)
  : option State :=
  let s := grantReset now s in
  let s := grantCenterDiff p ev s in
  let s := armLongPress ev s in
  if Nat.leb (List.length (changedTouches ev)) 1%nat then
    if Qltb (now - lastClickTime s) (doubleClickInterval p) then grantDoubleClick p ev s
    else Some (set_lastClickTime now s)
  else Some s.

(** ** onPanResponderMove *)

(** [this.props.horizontalOuterRangeOffset && ..(v)]. *)
Definition horizontalOuterRangeOffset (p : Props) (v : Q) (s : State) : State :=
  emit_if (has_horizontalOuterRangeOffset p) (EmitHorizontalOuterRangeOffset v) s.

(** The overflow bookkeeping of a horizontal drag when the image is wider
    than the box: returns the part of [diffX] that becomes real movement. *)
Definition absorbOverflow (p : Props) (diffX : Q) (s : State) : Q * State :=
  let c := horizontalWholeOuterCounter s in
  if Qltb 0 c then
    (* overflow on the right *)
    if Qltb diffX 0 then
      if Qltb (Qabs diffX) c then (0, set_horizontalWholeOuterCounter (c + diffX) s)
      else (diffX + c, horizontalOuterRangeOffset p 0 (set_horizontalWholeOuterCounter 0 s))
    else (diffX, set_horizontalWholeOuterCounter (c + diffX) s)
  else if Qltb c 0 then
    (* overflow on the left *)
    if Qltb 0 diffX then
      if Qltb diffX (Qabs c) then (0, set_horizontalWholeOuterCounter (c + diffX) s)
      else (diffX + c, horizontalOuterRangeOffset p 0 (set_horizontalWholeOuterCounter 0 s))
    else (diffX, set_horizontalWholeOuterCounter (c + diffX) s)
  else (diffX, s).

(** The epsilon [1 / 1e10] of the hard clamp. *)
Definition clampNudge : Q := 1 # 10000000000.

(** The horizontal movement of a single-touch move, before the overflow limit. *)
Definition panHorizontalMove (p : Props) (diffX : Q) (s : State) : State :=
  if Qltb (cropWidth p) (imageWidth p * scale s) then
    let '(diffX, s) := absorbOverflow p diffX s in
    (* generate displacement *)
    let s := set_positionX (positionX s + diffX / scale s) s in
    let horizontalMax := (imageWidth p * scale s - cropWidth p) / 2 / scale s in
    let s :=
      if Qltb (positionX s) (- horizontalMax) then
        let s := set_positionX (- horizontalMax) s in
        set_horizontalWholeOuterCounter (horizontalWholeOuterCounter s + - clampNudge) s
      else if Qltb horizontalMax (positionX s) then
        let s := set_positionX horizontalMax s in
        set_horizontalWholeOuterCounter (horizontalWholeOuterCounter s + clampNudge) s
      else s in
    set_animatedPositionX (positionX s) s
  else
    (* Can not drag horizontally, all count as overflow offset *)
    set_horizontalWholeOuterCounter (horizontalWholeOuterCounter s + diffX) s.

(** The amount of overflow will not exceed the set limit. *)
Definition limitOverflow (p : Props) (s : State) : State :=
  if Qltb (maxOverflow p) (horizontalWholeOuterCounter s) then
    set_horizontalWholeOuterCounter (maxOverflow p) s
  else if Qltb (horizontalWholeOuterCounter s) (- maxOverflow p) then
    set_horizontalWholeOuterCounter (- maxOverflow p) s
  else s.

(** If the overflow offset is not 0, execute the overflow callback. *)
Definition reportOverflow (p : Props) (s : State) : State :=
  if negb (Qeq_bool (horizontalWholeOuterCounter s) 0) then
    horizontalOuterRangeOffset p (horizontalWholeOuterCounter s) s
  else s.

(** The [if (this.swipeDownOffset === 0)] block of a single-touch move. *)
Definition panHorizontal (p : Props) (diffX diffY : Q) (s : State) : State :=
  let s := if Qltb (Qabs diffY) (Qabs diffX) then set_isHorizontalWrap true s else s in
  let s := panHorizontalMove p diffX s in
  let s := limitOverflow p s in
  reportOverflow p s.

(** The vertical part of a single-touch move. *)
Definition panVertical (p : Props) (diffY : Q) (s : State) : State :=
  if Qltb (cropHeight p) (imageHeight p * scale s) then
    let s := set_positionY (positionY s + diffY / scale s) s in
    set_animatedPositionY (positionY s) s
  else if enableSwipeDown p && negb (isHorizontalWrap s) then
    let s := set_swipeDownOffset (swipeDownOffset s + diffY) s in
    if Qltb 0 (swipeDownOffset s) then
      let s := set_positionY (positionY s + diffY / scale s) s in
      let s := set_animatedPositionY (positionY s) s in
      (* The further down you go, the smaller the zoom *)
      let s := set_scale (scale s - diffY / 1000) s in
      set_animatedScale (scale s) s
    else s
  else s.

(** [gestureState.d - (last || 0)], and [0] when [last === null]. *)
Definition moveDiff (d : Q) (last : option Q) : Q :=
  let diff := d - match last with Some v => v | None => 0 end in
  match last with None => 0 | Some _ => diff end.

(** A move with at most one changed touch. *)
Definition moveSingle (p : Props) (g : GestureState) (s : State) : State :=
  let diffX := moveDiff (gs_dx g) (lastPositionX s) in
  let diffY := moveDiff (gs_dy g) (lastPositionY s) in
  let s := set_lastPositionX (Some (gs_dx g)) s in
  let s := set_lastPositionY (Some (gs_dy g)) s in
  let s := set_horizontalWholeCounter (horizontalWholeCounter s + diffX) s in
  let s := set_verticalWholeCounter (verticalWholeCounter s + diffY) s in
  let s :=
    if Qltb 5 (Qabs (horizontalWholeCounter s)) || Qltb 5 (Qabs (verticalWholeCounter s))
    then set_longPressTimeout None s else s in
  if panToMove p then
    let s := if Qeq_bool (swipeDownOffset s) 0 then panHorizontal p diffX diffY s else s in
    panVertical p diffY s
  else s.

(** The pixel span of two touches, [Number(diagonalDistance.toFixed(1))]. *)
Definition touchSpan (t0 t1 : Touch) : Q :=
  let '(minX, maxX) :=
    if Qltb (t_locationX t1) (t_locationX t0) then (t_pageX t1, t_pageX t0)
    else (t_pageX t0, t_pageX t1) in
  let '(minY, maxY) :=
    if Qltb (t_locationY t1) (t_locationY t0) then (t_pageY t1, t_pageY t0)
    else (t_pageY t0, t_pageY t1) in
  let widthDistance := maxX - minX in
  let heightDistance := maxY - minY in
  sqrt_toFixed1 (widthDistance * widthDistance + heightDistance * heightDistance).

(** A pinch step once the new span is known. *)
Definition pinchZoom (p : Props) (s : State) : State :=
  match zoomLastDistance s with
  | Some last =>
      let distanceDiff := (zoomCurrentDistance s - last) / 200 in
      let zoom := scale s + distanceDiff in
      let zoom := if Qltb zoom (minScale p) then minScale p else zoom in
      let zoom := if Qltb (maxScale p) zoom then maxScale p else zoom in
      let beforeScale := scale s in
      let s := set_scale zoom s in
      let s := set_animatedScale (scale s) s in
      let diffScale := scale s - beforeScale in
      let s := set_positionX (positionX s - centerDiffX s * diffScale / scale s) s in
      let s := set_positionY (positionY s - centerDiffY s * diffScale / scale s) s in
      let s := set_animatedPositionX (positionX s) s in
      set_animatedPositionY (positionY s) s
  | None => s
  end.

(** The clamp as the specification words it (not a translation of the source): [clamp(x, lo, hi) = min (max x lo) hi]. *)
Definition clampSpec (x lo hi : Q) : Q := Qmin (Qmax x lo) hi.

(** A move with two or more changed touches. *)
Definition moveMulti (p : Props) (ev : NativeEvent) (s : State) : State :=
  let s := set_longPressTimeout None s in
  if pinchToZoom p then
    match changedTouches ev with
    | t0 :: t1 :: _ =>
        let s := set_zoomCurrentDistance (touchSpan t0 t1) s in
        let s := pinchZoom p s in
        set_zoomLastDistance (Some (zoomCurrentDistance s)) s
    | _ => s (* not reached: this branch has at least two touches *)
    end
  else s.

(** onPanResponderMove. *)
Definition onPanResponderMove (p : Props) (ev : NativeEvent) (g : GestureState) (s : State)
  : State :=
  if isDoubleClick s then s
  else
    let s := if Nat.leb (List.length (changedTouches ev)) 1%nat
             then moveSingle p g s else moveMulti p ev s in
    imageDidMove p "onPanResponderMove" s.

(** ** Release *)

(** The swipe-down test at the head of panResponderReleaseResolve. *)
Definition swipeDownFires (p : Props) (s : State) : bool :=
  enableSwipeDown p && negb (Qeq_bool (swipeDownThreshold p) 0)
  && Qltb (swipeDownThreshold p) (swipeDownOffset s).

(** The [if] statements of panResponderReleaseResolve after the swipe-down
    test, in source order. *)

(** Force reset to 1 if zoom is less than 1. *)
Definition settleMinScale (p : Props) (s : State) : State :=
  if enableCenterFocus p && Qltb (scale s) 1 then
    let s := set_scale 1 s in
    start_timing AnimScale (scale s) 100 s
  else s.

(** If the image width is smaller than the box width, reset positionX. *)
Definition settleNarrowX (p : Props) (s : State) : State :=
  if Qle_bool (imageWidth p * scale s) (cropWidth p) then
    let s := set_positionX 0 s in
    start_timing AnimPositionX (positionX s) 100 s
  else s.

(** If the image height is less than the box height, reset positionY. *)
Definition settleShortY (p : Props) (s : State) : State :=
  if Qle_bool (imageHeight p * scale s) (cropHeight p) then
    let s := set_positionY 0 s in
    start_timing AnimPositionY (positionY s) 100 s
  else s.

(** If the image is taller than the box, clamp positionY to its tolerance. *)
Definition settleClampY (p : Props) (s : State) : State :=
  if Qltb (cropHeight p) (imageHeight p * scale s) then
    let verticalMax := (imageHeight p * scale s - cropHeight p) / 2 / scale s in
    let s :=
      if Qltb (positionY s) (- verticalMax) then set_positionY (- verticalMax) s
      else if Qltb verticalMax (positionY s) then set_positionY verticalMax s
      else s in
    start_timing AnimPositionY (positionY s) 100 s
  else s.

(** If the image is wider than the box, clamp positionX to its tolerance. *)
Definition settleClampX (p : Props) (s : State) : State :=
  if Qltb (cropWidth p) (imageWidth p * scale s) then
    let horizontalMax := (imageWidth p * scale s - cropWidth p) / 2 / scale s in
    let s :=
      if Qltb (positionX s) (- horizontalMax) then set_positionX (- horizontalMax) s
      else if Qltb horizontalMax (positionX s) then set_positionX horizontalMax s
      else s in
    start_timing AnimPositionX (positionX s) 100 s
  else s.

(** After the normal end of dragging, if there is no zoom, go back to 0,0. *)
Definition settleCenterFocus (p : Props) (s : State) : State :=
  if enableCenterFocus p && Qeq_bool (scale s) 1 then
    let s := set_positionX 0 s in
    let s := set_positionY 0 s in
    let s := start_timing AnimPositionX (positionX s) 100 s in
    start_timing AnimPositionY (positionY s) 100 s
  else s.

(** panResponderReleaseResolve. *)
Definition panResponderReleaseResolve (p : Props) (s : State) : State :=
  if swipeDownFires p s then
    (* Stop reset. *)
    emit_if (has_onSwipeDown p) EmitSwipeDown s
  else
    let s := settleMinScale p s in
    let s := settleNarrowX p s in
    let s := settleShortY p s in
    let s := settleClampY p s in
    let s := settleClampX p s in
    let s := settleCenterFocus p s in
    (* Horizontal overflow is empty *)
    let s := set_horizontalWholeOuterCounter 0 s in
    (* swipeDown The overflow amount is empty *)
    let s := set_swipeDownOffset 0 s in
    imageDidMove p "onPanResponderRelease" s.

(** [Math.sqrt(d2) < c], decided exactly. *)
Definition sqrtLt (d2 c : Q) : bool := Qltb 0 c && Qltb d2 (c * c).

(** onPanResponderRelease. *)
Definition onPanResponderRelease (p : Props) (ev : NativeEvent) (g : GestureState) (s : State)
  : State :=
  let s := set_longPressTimeout None s in
  if isDoubleClick s then s
  else if isLongPress s then s
  else
    let d2 := gs_dx g * gs_dx g + gs_dy g * gs_dy g in
    if Nat.eqb (List.length (changedTouches ev)) 1%nat && sqrtLt d2 (clickDistance p) then
      set_singleClickTimeout
        (Some (mkClickInfo (ne_locationX ev) (ne_locationY ev) (ne_pageX ev) (ne_pageY ev))) s
    else
      let s := emit_if (has_responderRelease p) (EmitResponderRelease (gs_vx g) (scale s)) s in
      panResponderReleaseResolve p s.

(** ** Public methods *)

(** resetScale. *)
Definition resetScale (s : State) : State :=
  let s := set_positionX 0 s in
  let s := set_positionY 0 s in
  let s := set_scale 1 s in
  set_animatedScale 1 s.

(** reset. *)
Definition reset (s : State) : State :=
  let s := set_scale 1 s in
  let s := set_animatedScale (scale s) s in
  let s := set_positionX 0 s in
  let s := set_animatedPositionX (positionX s) s in
  let s := set_positionY 0 s in
  set_animatedPositionY (positionY s) s.

(** centerOn. The [imageDidMove('centerOn')] run when the tweens complete is
    left to the host. *)
Definition centerOnM (params : ICenterOn) (s : State) : State :=
  let s := set_positionX (co_x params) s in
  let s := set_positionY (co_y params) s in
  let s := set_scale (co_scale params) s in
  let duration := if Qeq_bool (co_duration params) 0 then 300 else co_duration params in
  start_parallel3 duration s.

(** didCenterOnChange: [!==] on each of x, y and scale. *)
Definition didCenterOnChange (params paramsNext : ICenterOn) : bool :=
  negb (Qeq_bool (co_x params) (co_x paramsNext))
  || negb (Qeq_bool (co_y params) (co_y paramsNext))
  || negb (Qeq_bool (co_scale params) (co_scale paramsNext)).

(** componentDidMount, from the [centerOn] prop. *)
Definition componentDidMount (cur : option ICenterOn) (s : State) : State :=
  match cur with Some c => centerOnM c s | None => s end.

(** componentDidUpdate, from the previous and the current [centerOn] prop. *)
Definition componentDidUpdate (prev cur : option ICenterOn) (s : State) : State :=
  match cur, prev with
  | Some c, None => centerOnM c s
  | Some c, Some pc => if didCenterOnChange pc c then centerOnM c s else s
  | None, _ => s
  end.

(** ** Runs of the component under fixed props *)

Inductive Event : Type :=
| EvGrant (now : Q) (ev : NativeEvent)
| EvMove (ev : NativeEvent) (g : GestureState)
| EvRelease (ev : NativeEvent) (g : GestureState)
| EvLongPressTimer
| EvSingleClickTimer
| EvResetScale
| EvReset
| EvCenterOn (c : ICenterOn).

(** One event; [None] when the handler throws. *)
Definition step (p : Props) (e : Event) (s : State) : option State :=
  match e with
  | EvGrant now ev => onPanResponderGrant p now ev s
  | EvMove ev g => Some (onPanResponderMove p ev g s)
  | EvRelease ev g => Some (onPanResponderRelease p ev g s)
  | EvLongPressTimer =>
      match longPressTimeout s with
      | Some c =>
          let s := set_longPressTimeout None s in
          let s := set_isLongPress true s in
          Some (emit_if (has_onLongPress p) (EmitLongPress c) s)
      | None => Some s
      end
  | EvSingleClickTimer =>
      match singleClickTimeout s with
      | Some c => Some (emit_if (has_onClick p) (EmitClick c) (set_singleClickTimeout None s))
      | None => Some s
      end
  | EvResetScale => Some (resetScale s)
  | EvReset => Some (reset s)
  | EvCenterOn c => Some (centerOnM c s)
  end.

Fixpoint run (p : Props) (es : list Event) (s : State) : option State :=
  match es with
  | [] => Some s
  | e :: es => match step p e s with
               | Some s' => run p es s'
               | None => None
               end
  end.

(** ** Sample configurations and gestures *)

(** A 300x300 box showing a 300x300 image, with every feature on. *)
Definition demoProps : Props :=
  mkProps 300 300 300 300 true true true false true 50 100 (3 # 5) 10 10 175
          true true true true true true true None.

(** The same props with a different [swipeDownThreshold]. *)
Definition withThreshold (t : Q) (p : Props) : Props :=
  mkProps (cropWidth p) (cropHeight p) (imageWidth p) (imageHeight p)
          (panToMove p) (pinchToZoom p) (enableDoubleClickZoom p) (enableCenterFocus p)
          (enableSwipeDown p) t (maxOverflow p) (minScale p) (maxScale p)
          (clickDistance p) (doubleClickInterval p)
          (has_onLongPress p) (has_onDoubleClick p) (has_onClick p)
          (has_horizontalOuterRangeOffset p) (has_onSwipeDown p)
          (has_responderRelease p) (has_onMove p) (centerOn p).

Definition touchAt (x y : Q) : Touch := mkTouch x y x y.

(** A one-finger event at page point (x, y). *)
Definition oneFinger (x y : Q) : NativeEvent := mkNativeEvent [touchAt x y] x y x y.

(** A two-finger event. *)
Definition twoFingers (x0 y0 x1 y1 : Q) : NativeEvent :=
  mkNativeEvent [touchAt x0 y0; touchAt x1 y1] x0 y0 x0 y0.

Definition gesture (dx dy : Q) : GestureState := mkGestureState dx dy 0.

(** The state reached from [initState] by a run that does not throw. *)
Definition stateAfter (p : Props) (es : list Event) : State :=
  match run p es initState with Some s => s | None => initState end.

(** Touch down, then drag 60 down: the image fits the box, so the drag is a
    swipe-down. *)
Definition swipeDownDrag : list Event :=
  [EvGrant 1000 (oneFinger 10 10);
   EvMove (oneFinger 10 10) (gesture 0 0);
   EvMove (oneFinger 10 70) (gesture 0 60)].

(** Two fingers around the box centre, spreading from a span of 100. *)
Definition pinchStart : list Event :=
  [EvGrant 1000 (twoFingers 100 150 200 150);
   EvMove (twoFingers 100 150 200 150) (gesture 0 0)].

(** ... to a span of 140. *)
Definition pinchSpread : NativeEvent := twoFingers 80 150 220 150.

(** A tap, then a second tap 100 ms later at the same point. *)
Definition doubleTap : list Event :=
  [EvGrant 1000 (oneFinger 10 10);
   EvRelease (oneFinger 10 10) (gesture 0 0);
   EvGrant 1100 (oneFinger 10 10)].

(** Events of a gesture already under way. *)
Definition isMoveOrRelease (e : Event) : bool :=
  match e with EvMove _ _ | EvRelease _ _ => true | _ => false end.

Definition isGrant (e : Event) : bool :=
  match e with EvGrant _ _ => true | _ => false end.

(** [demoProps] with swipe-down dismissal turned off. *)
Definition noSwipeProps : Props :=
  mkProps 300 300 300 300 true true true false false 50 100 (3 # 5) 10 10 175
          true true true true true true true None.

(** An emitted callback respects the bound [m] when it is not a
    horizontalOuterRangeOffset call, or when its argument is within [m]. *)
Definition overflowReportOk (m : Q) (e : Emit) : Prop :=
  match e with
  | EmitHorizontalOuterRangeOffset v => Qabs v <= m
  | _ => True
  end.

(** A move event with at least two changed touches (a pinch move). *)
Definition isPinchMove (e : Event) : bool :=
  match e with
  | EvMove ev _ => Nat.leb 2 (List.length (changedTouches ev))
  | _ => false
  end.

(** A move event with at most one changed touch, from an event and a
    gesture state. *)
Definition isSingleTouch (ev : NativeEvent) : bool :=
  Nat.leb (List.length (changedTouches ev)) 1.

Definition moveEvent (m : NativeEvent * GestureState) : Event := EvMove (fst m) (snd m).

(** The clamping [if / else if] of the source, as a function:
    [x < -m ? -m : x > m ? m : x]. *)
Definition clampPos (x m : Q) : Q :=
  if Qltb x (- m) then - m else if Qltb m x then m else x.

(** The no-black-border condition along one axis, for an image of [size]
    in a box of [box] at scale [sc]: the offset is 0 when the image fits,
    and at most the half-overhang [(size * sc - box) / 2 / sc] otherwise. *)
Definition inBounds (size box sc x : Q) : Prop :=
  (size * sc <= box -> x = 0) /\
  (box < size * sc -> Qabs x <= (size * sc - box) / 2 / sc).

(** ** Proofs *)

Ltac split_ifs :=
  repeat match goal with
  | |- context [if ?b then _ else _] => destruct b
  | |- context [match ?x with Some _ => _ | None => _ end] => destruct x
  end.

Lemma Qltb_iff (a b : Q) : Qltb a b = true <-> a < b.
Proof.
  unfold Qltb. rewrite negb_true_iff.
  split; intro H.
  - apply Qnot_le_lt. intro H'. apply Qle_bool_iff in H'. congruence.
  - destruct (Qle_bool b a) eqn:E; [|reflexivity].
    apply Qle_bool_iff in E. exfalso. apply (Qlt_not_le _ _ H E).
Qed.

Lemma Qltb_false (a b : Q) : Qltb a b = false <-> b <= a.
Proof.
  unfold Qltb. rewrite negb_false_iff. apply Qle_bool_iff.
Qed.

Lemma Some_eq {A : Type} (a b : A) : Some a = Some b -> a = b.
Proof. intro H. congruence. Qed.

Lemma emit_if_frame (b : bool) (e : Emit) (s : State) :
  exists l, emit_if b e s = set_emitted (emitted s ++ l) s.
Proof.
  unfold emit_if. destruct b.
  - exists [e]. reflexivity.
  - exists []. rewrite app_nil_r. destruct s; reflexivity.
Qed.

(** Fields other than [emitted] are untouched by a callback. *)
Ltac emit_frame :=
  repeat match goal with
  | |- context [emit_if ?b ?e ?s] =>
      let l := fresh "l" in
      destruct (emit_if_frame b e s) as [l ->]
  end.

Lemma imageDidMove_frame (p : Props) (type : string) (s : State) :
  exists l, imageDidMove p type s = set_emitted (emitted s ++ l) s.
Proof. apply emit_if_frame. Qed.

Lemma doubleClickZoom_counters (p : Props) (s : State) :
  horizontalWholeOuterCounter (doubleClickZoom p s) = horizontalWholeOuterCounter s /\
  swipeDownOffset (doubleClickZoom p s) = swipeDownOffset s.
Proof. unfold doubleClickZoom. destruct (_ || _); split; reflexivity. Qed.

Lemma start_parallel3_frame (d : Q) (s : State) :
  exists l, start_parallel3 d s = set_animations (animations s ++ l) s.
Proof.
  exists [mkAnimation AnimScale (scale s) d; mkAnimation AnimPositionX (positionX s) d;
          mkAnimation AnimPositionY (positionY s) d].
  unfold start_parallel3, start_timing. cbn. rewrite <- !app_assoc. reflexivity.
Qed.

Lemma grantDoubleClick_counters (p : Props) (ev : NativeEvent) (s s' : State) :
  grantDoubleClick p ev s = Some s' ->
  horizontalWholeOuterCounter s' = horizontalWholeOuterCounter s /\
  swipeDownOffset s' = swipeDownOffset s.
Proof.
  unfold grantDoubleClick.
  destruct (changedTouches ev) as [|t0 rest]; [discriminate|].
  destruct (enableDoubleClickZoom p); intro H; apply Some_eq in H; subst s'; emit_frame;
    [|split; reflexivity].
  match goal with
  | |- context [start_parallel3 ?d ?s0] => destruct (start_parallel3_frame d s0) as [l1 ->]
  end.
  match goal with
  | |- context [imageDidMove p ?t ?s0] => destruct (imageDidMove_frame p t s0) as [l2 ->]
  end.
  match goal with
  | |- context [doubleClickZoom p ?x] => destruct (doubleClickZoom_counters p x) as [A B]
  end.
  split; [etransitivity; [exact A | reflexivity] | etransitivity; [exact B | reflexivity]].
Qed.

Lemma grant_counters (p : Props) (now : Q) (ev : NativeEvent) (s s' : State) :
  onPanResponderGrant p now ev s = Some s' ->
  horizontalWholeOuterCounter s' = horizontalWholeOuterCounter s /\
  swipeDownOffset s' = swipeDownOffset s.
Proof.
  unfold onPanResponderGrant. cbn zeta.
  assert (E : forall s0, s0 = armLongPress ev (grantCenterDiff p ev (grantReset now s)) ->
              horizontalWholeOuterCounter s0 = horizontalWholeOuterCounter s /\
              swipeDownOffset s0 = swipeDownOffset s).
  { intros s0 ->. unfold armLongPress, grantCenterDiff, grantReset.
    destruct (changedTouches ev) as [|t0 [|t1 rest]]; split; reflexivity. }
  destruct (Nat.leb _ _); [destruct (Qltb _ _)|]; intro H.
  - apply grantDoubleClick_counters in H as [-> ->]. exact (E _ eq_refl).
  - injection H as <-. exact (E _ eq_refl).
  - injection H as <-. exact (E _ eq_refl).
Qed.

Lemma absorbOverflow_frame (p : Props) (d : Q) (s : State) :
  swipeDownOffset (snd (absorbOverflow p d s)) = swipeDownOffset s /\
  scale (snd (absorbOverflow p d s)) = scale s /\
  isHorizontalWrap (snd (absorbOverflow p d s)) = isHorizontalWrap s.
Proof.
  unfold absorbOverflow, horizontalOuterRangeOffset.
  split_ifs; cbn; emit_frame; repeat split.
Qed.

Lemma panHorizontal_frame (p : Props) (dx dy : Q) (s : State) :
  swipeDownOffset (panHorizontal p dx dy s) = swipeDownOffset s /\
  scale (panHorizontal p dx dy s) = scale s.
Proof.
  unfold panHorizontal, reportOverflow, limitOverflow, horizontalOuterRangeOffset,
    panHorizontalMove.
  cbn zeta.
  destruct (Qltb (Qabs dy) (Qabs dx));
  match goal with
  | |- context [absorbOverflow p dx ?s0] =>
      pose proof (absorbOverflow_frame p dx s0) as (E1 & E2 & _);
      destruct (absorbOverflow p dx s0) as [d1 s1]; cbn in E1, E2
  end;
  split_ifs; cbn; emit_frame; cbn; split; congruence.
Qed.

Lemma limitOverflow_bound (p : Props) (s : State) :
  0 <= maxOverflow p ->
  Qabs (horizontalWholeOuterCounter (limitOverflow p s)) <= maxOverflow p.
Proof.
  intro Hm. unfold limitOverflow. apply Qabs_Qle_condition.
  assert (Hneg : - maxOverflow p <= maxOverflow p).
  { apply Qle_trans with 0; [|exact Hm].
    rewrite <- (Qopp_involutive 0). apply Qopp_le_compat. exact Hm. }
  destruct (Qltb (maxOverflow p) (horizontalWholeOuterCounter s)) eqn:E1; cbn.
  - split; [exact Hneg | apply Qle_refl].
  - destruct (Qltb (horizontalWholeOuterCounter s) (- maxOverflow p)) eqn:E2; cbn.
    + split; [apply Qle_refl | exact Hneg].
    + apply Qltb_false in E1. apply Qltb_false in E2. split; assumption.
Qed.

Lemma reportOverflow_frame (p : Props) (s : State) :
  exists l, reportOverflow p s = set_emitted (emitted s ++ l) s.
Proof.
  unfold reportOverflow, horizontalOuterRangeOffset.
  destruct (negb _).
  - apply emit_if_frame.
  - exists []. rewrite app_nil_r. destruct s; reflexivity.
Qed.

Lemma panHorizontal_bound (p : Props) (dx dy : Q) (s : State) :
  0 <= maxOverflow p ->
  Qabs (horizontalWholeOuterCounter (panHorizontal p dx dy s)) <= maxOverflow p.
Proof.
  intro Hm. unfold panHorizontal. cbn zeta.
  match goal with
  | |- context [reportOverflow p ?s0] =>
      destruct (reportOverflow_frame p s0) as [l ->]
  end.
  cbn. apply limitOverflow_bound. exact Hm.
Qed.

Lemma panVertical_frame (p : Props) (dy : Q) (s : State) :
  horizontalWholeOuterCounter (panVertical p dy s) = horizontalWholeOuterCounter s /\
  isHorizontalWrap (panVertical p dy s) = isHorizontalWrap s /\
  (swipeDownOffset (panVertical p dy s) = swipeDownOffset s \/
   (enableSwipeDown p = true /\ isHorizontalWrap s = false /\
    imageHeight p * scale s <= cropHeight p)).
Proof.
  unfold panVertical.
  destruct (Qltb (cropHeight p) (imageHeight p * scale s)) eqn:E.
  - cbn. repeat split. left. reflexivity.
  - destruct (enableSwipeDown p && negb (isHorizontalWrap s)) eqn:Eb;
      [|cbn; repeat split; left; reflexivity].
    apply andb_prop in Eb as [Es Eh]. apply negb_true_iff in Eh.
    apply Qltb_false in E.
    split_ifs; cbn; (split; [reflexivity|split; [reflexivity|]]);
      right; repeat split; assumption.
Qed.

Lemma moveMulti_frame (p : Props) (ev : NativeEvent) (s : State) :
  horizontalWholeOuterCounter (moveMulti p ev s) = horizontalWholeOuterCounter s /\
  swipeDownOffset (moveMulti p ev s) = swipeDownOffset s.
Proof.
  unfold moveMulti, pinchZoom.
  destruct (pinchToZoom p); [|split; reflexivity].
  destruct (changedTouches ev) as [|t0 [|t1 rest]]; cbn; try (split; reflexivity).
  destruct (zoomLastDistance s); cbn; split; reflexivity.
Qed.

Lemma moveSingle_hwoc (p : Props) (g : GestureState) (s : State) :
  0 <= maxOverflow p ->
  Qabs (horizontalWholeOuterCounter s) <= maxOverflow p ->
  Qabs (horizontalWholeOuterCounter (moveSingle p g s)) <= maxOverflow p.
Proof.
  intros Hm Hs. unfold moveSingle. cbn zeta.
  match goal with
  | |- context [if panToMove p then _ else ?s0] =>
      assert (E0 : horizontalWholeOuterCounter s0 = horizontalWholeOuterCounter s)
        by (destruct (_ || _); reflexivity);
      destruct (panToMove p); [|rewrite E0; exact Hs];
      destruct (Qeq_bool (swipeDownOffset s0) 0)
  end.
  - match goal with
    | |- context [panVertical p ?d ?s1] => destruct (panVertical_frame p d s1) as [-> _]
    end.
    apply panHorizontal_bound. exact Hm.
  - match goal with
    | |- context [panVertical p ?d ?s1] => destruct (panVertical_frame p d s1) as [-> _]
    end.
    rewrite E0. exact Hs.
Qed.

Lemma moveSingle_sdo (p : Props) (g : GestureState) (s : State) :
  swipeDownOffset (moveSingle p g s) = swipeDownOffset s \/
  (panToMove p = true /\ enableSwipeDown p = true /\
   isHorizontalWrap (moveSingle p g s) = false /\
   imageHeight p * scale s <= cropHeight p).
Proof.
  unfold moveSingle. cbn zeta.
  match goal with
  | |- context [if panToMove p then _ else ?s0] =>
      assert (E0 : swipeDownOffset s0 = swipeDownOffset s /\ scale s0 = scale s)
        by (destruct (_ || _); split; reflexivity);
      destruct (panToMove p) eqn:Hp; [|left; apply E0];
      destruct (Qeq_bool (swipeDownOffset s0) 0)
  end.
  - match goal with
    | |- context [panVertical p ?d (panHorizontal p ?dx ?dy ?s1)] =>
        destruct (panHorizontal_frame p dx dy s1) as [F1 F2];
        destruct (panVertical_frame p d (panHorizontal p dx dy s1)) as (_ & -> & [-> | (? & ? & ?)])
    end.
    + left. rewrite F1. apply E0.
    + right. rewrite F2, (proj2 E0) in *. repeat split; assumption.
  - match goal with
    | |- context [panVertical p ?d ?s1] =>
        destruct (panVertical_frame p d s1) as (_ & -> & [-> | (? & ? & ?)])
    end.
    + left. apply E0.
    + right. rewrite (proj2 E0) in *. repeat split; assumption.
Qed.

Lemma resolve_counters (p : Props) (s : State) :
  if swipeDownFires p s
  then exists l, panResponderReleaseResolve p s = set_emitted (emitted s ++ l) s
  else horizontalWholeOuterCounter (panResponderReleaseResolve p s) = 0 /\
       swipeDownOffset (panResponderReleaseResolve p s) = 0.
Proof.
  unfold panResponderReleaseResolve.
  destruct (swipeDownFires p s); [apply emit_if_frame|].
  cbn zeta.
  match goal with
  | |- context [imageDidMove p ?t ?s0] => destruct (imageDidMove_frame p t s0) as [l ->]
  end.
  split; reflexivity.
Qed.

(** A release either leaves the two overflow counters alone or zeroes both. *)
Lemma release_counters (p : Props) (ev : NativeEvent) (g : GestureState) (s : State) :
  (horizontalWholeOuterCounter (onPanResponderRelease p ev g s) = horizontalWholeOuterCounter s /\
   swipeDownOffset (onPanResponderRelease p ev g s) = swipeDownOffset s) \/
  (horizontalWholeOuterCounter (onPanResponderRelease p ev g s) = 0 /\
   swipeDownOffset (onPanResponderRelease p ev g s) = 0).
Proof.
  unfold onPanResponderRelease. cbn zeta.
  destruct (isDoubleClick (set_longPressTimeout None s)); [left; split; reflexivity|].
  destruct (isLongPress (set_longPressTimeout None s)); [left; split; reflexivity|].
  destruct (_ && _); [left; split; reflexivity|].
  match goal with
  | |- context [panResponderReleaseResolve p ?s0] =>
      pose proof (resolve_counters p s0) as R;
      destruct (swipeDownFires p s0);
      [destruct R as [l ->]; left | right; exact R]
  end.
  cbn. emit_frame. split; reflexivity.
Qed.

Lemma move_counters (p : Props) (ev : NativeEvent) (g : GestureState) (s : State) :
  let s' := onPanResponderMove p ev g s in
  (horizontalWholeOuterCounter s' = horizontalWholeOuterCounter s /\
   swipeDownOffset s' = swipeDownOffset s) \/
  (isDoubleClick s = false /\ (List.length (changedTouches ev) <= 1)%nat /\
   horizontalWholeOuterCounter s' = horizontalWholeOuterCounter (moveSingle p g s) /\
   swipeDownOffset s' = swipeDownOffset (moveSingle p g s) /\
   isHorizontalWrap s' = isHorizontalWrap (moveSingle p g s)).
Proof.
  cbv zeta. unfold onPanResponderMove.
  destruct (isDoubleClick s) eqn:Ed; [left; split; reflexivity|].
  destruct (Nat.leb (List.length (changedTouches ev)) 1) eqn:El.
  - right. apply Nat.leb_le in El.
    destruct (imageDidMove_frame p "onPanResponderMove" (moveSingle p g s)) as [l ->].
    repeat split; assumption.
  - left. destruct (imageDidMove_frame p "onPanResponderMove" (moveMulti p ev s)) as [l ->].
    apply moveMulti_frame.
Qed.

(** One event preserves [|horizontalWholeOuterCounter| <= maxOverflow]. *)
Lemma step_overflow_bound (p : Props) (e : Event) (s s' : State) :
  0 <= maxOverflow p ->
  Qabs (horizontalWholeOuterCounter s) <= maxOverflow p ->
  step p e s = Some s' ->
  Qabs (horizontalWholeOuterCounter s') <= maxOverflow p.
Proof.
  intros Hm Hs Hstep.
  destruct e as [now ev | ev g | ev g | | | | | c]; cbn [step] in Hstep.
  - apply grant_counters in Hstep as [-> _]. exact Hs.
  - injection Hstep as <-.
    destruct (move_counters p ev g s) as [[-> _] | (_ & _ & -> & _)]; [exact Hs|].
    apply moveSingle_hwoc; assumption.
  - injection Hstep as <-.
    destruct (release_counters p ev g s) as [[-> _] | [-> _]]; [exact Hs|]. exact Hm.
  - destruct (longPressTimeout s); injection Hstep as <-; [|exact Hs].
    emit_frame. exact Hs.
  - destruct (singleClickTimeout s); injection Hstep as <-; [|exact Hs].
    emit_frame. exact Hs.
  - injection Hstep as <-. exact Hs.
  - injection Hstep as <-. exact Hs.
  - injection Hstep as <-. exact Hs.
Qed.

Lemma run_overflow_bound (p : Props) (es : list Event) (s0 s : State) :
  0 <= maxOverflow p ->
  Qabs (horizontalWholeOuterCounter s0) <= maxOverflow p ->
  run p es s0 = Some s ->
  Qabs (horizontalWholeOuterCounter s) <= maxOverflow p.
Proof.
  revert s0. induction es as [|e es IH]; intros s0 Hm Hs0 Hrun; cbn [run] in Hrun.
  - injection Hrun as <-. exact Hs0.
  - destruct (step p e s0) as [s1|] eqn:E; [|discriminate].
    apply (IH s1); [exact Hm | | exact Hrun].
    apply (step_overflow_bound p e s0 s1); assumption.
Qed.

Lemma Qeq_bool_self (a : Q) : Qeq_bool a a = true.
Proof. apply Qeq_bool_iff. apply Qeq_refl. Qed.

(** A horizontal drag of 150 on an image as wide as the box. *)
Definition sideDrag : list Event :=
  [EvGrant 1000 (oneFinger 10 10);
   EvMove (oneFinger 10 10) (gesture 0 0);
   EvMove (oneFinger 160 10) (gesture 150 0)].

Lemma absorbOverflow_flags (p : Props) (d : Q) (s : State) :
  isHorizontalWrap (snd (absorbOverflow p d s)) = isHorizontalWrap s /\
  longPressTimeout (snd (absorbOverflow p d s)) = longPressTimeout s.
Proof.
  unfold absorbOverflow, horizontalOuterRangeOffset.
  split_ifs; cbn; emit_frame; split; reflexivity.
Qed.

Lemma panHorizontal_flags (p : Props) (dx dy : Q) (s : State) :
  isHorizontalWrap (panHorizontal p dx dy s) =
    isHorizontalWrap s || Qltb (Qabs dy) (Qabs dx) /\
  longPressTimeout (panHorizontal p dx dy s) = longPressTimeout s.
Proof.
  unfold panHorizontal, reportOverflow, limitOverflow, horizontalOuterRangeOffset,
    panHorizontalMove.
  cbn zeta.
  destruct (Qltb (Qabs dy) (Qabs dx));
  match goal with
  | |- context [absorbOverflow p dx ?s0] =>
      pose proof (absorbOverflow_flags p dx s0) as (E1 & E2);
      destruct (absorbOverflow p dx s0) as [d1 s1]; cbn in E1, E2
  end;
  split_ifs; cbn; emit_frame; cbn; rewrite ?orb_true_r, ?orb_false_r; split; congruence.
Qed.

Lemma panVertical_timer (p : Props) (dy : Q) (s : State) :
  longPressTimeout (panVertical p dy s) = longPressTimeout s.
Proof. unfold panVertical. split_ifs; reflexivity. Qed.

(** The two [if]s of the pinch step compute [min (max zoom minScale) maxScale]. *)
Lemma pinch_clamp (z lo hi : Q) :
  (if Qltb hi (if Qltb z lo then lo else z) then hi
   else if Qltb z lo then lo else z) == Qmin (Qmax z lo) hi.
Proof.
  destruct (Qltb z lo) eqn:E1.
  - apply Qltb_iff in E1. rewrite (Q.max_r z lo) by (apply Qlt_le_weak; exact E1).
    destruct (Qltb hi lo) eqn:E2.
    + apply Qltb_iff in E2. rewrite Q.min_r by (apply Qlt_le_weak; exact E2). reflexivity.
    + apply Qltb_false in E2. rewrite Q.min_l by exact E2. reflexivity.
  - apply Qltb_false in E1. rewrite (Q.max_l z lo) by exact E1.
    destruct (Qltb hi z) eqn:E2.
    + apply Qltb_iff in E2. rewrite Q.min_r by (apply Qlt_le_weak; exact E2). reflexivity.
    + apply Qltb_false in E2. rewrite Q.min_l by exact E2. reflexivity.
Qed.

(** [this.scale > 1 || this.scale < 1] is [scale !== 1]. *)
Lemma toggle_test (x : Q) : Qltb 1 x || Qltb x 1 = true <-> ~ x == 1.
Proof.
  rewrite orb_true_iff, !Qltb_iff. split.
  - intros [H|H] E; rewrite E in H; apply (Qlt_irrefl 1); exact H.
  - intro H. destruct (Q_dec 1 x) as [[H1|H1]|H1]; [left; exact H1|right; exact H1|].
    exfalso. apply H. symmetry. exact H1.
Qed.

Lemma doubleClickZoom_reset (p : Props) (s : State) :
  Qltb 1 (scale s) || Qltb (scale s) 1 = true ->
  doubleClickZoom p s = set_positionY 0 (set_positionX 0 (set_scale 1 s)).
Proof. intro E. unfold doubleClickZoom. rewrite E. reflexivity. Qed.

Lemma doubleClickZoom_zoom (p : Props) (s : State) :
  Qltb 1 (scale s) || Qltb (scale s) 1 = false ->
  doubleClickZoom p s =
    set_positionY ((cropHeight p / 2 - doubleClickY s) * (2 - scale s) / 2)
      (set_positionX ((cropWidth p / 2 - doubleClickX s) * (2 - scale s) / 2)
         (set_scale 2 s)).
Proof. intro E. unfold doubleClickZoom. rewrite E. reflexivity. Qed.

(** The settling blocks of panResponderReleaseResolve emit nothing. *)
Lemma settle_emitted (p : Props) (s : State) :
  emitted (settleCenterFocus p (settleClampX p (settleClampY p (settleShortY p
    (settleNarrowX p (settleMinScale p s)))))) = emitted s.
Proof.
  assert (E1 : forall s0, emitted (settleMinScale p s0) = emitted s0)
    by (intro s0; unfold settleMinScale; split_ifs; reflexivity).
  assert (E2 : forall s0, emitted (settleNarrowX p s0) = emitted s0)
    by (intro s0; unfold settleNarrowX; split_ifs; reflexivity).
  assert (E3 : forall s0, emitted (settleShortY p s0) = emitted s0)
    by (intro s0; unfold settleShortY; split_ifs; reflexivity).
  assert (E4 : forall s0, emitted (settleClampY p s0) = emitted s0)
    by (intro s0; unfold settleClampY; cbn zeta; split_ifs; reflexivity).
  assert (E5 : forall s0, emitted (settleClampX p s0) = emitted s0)
    by (intro s0; unfold settleClampX; cbn zeta; split_ifs; reflexivity).
  assert (E6 : forall s0, emitted (settleCenterFocus p s0) = emitted s0)
    by (intro s0; unfold settleCenterFocus; split_ifs; reflexivity).
  rewrite E6, E5, E4, E3, E2, E1. reflexivity.
Qed.

(** What panResponderReleaseResolve appends to [emitted]. *)
Lemma resolve_emitted (p : Props) (s : State) :
  exists l, emitted (panResponderReleaseResolve p s) = emitted s ++ l /\
    (In EmitSwipeDown l <-> has_onSwipeDown p = true /\ swipeDownFires p s = true).
Proof.
  unfold panResponderReleaseResolve.
  destruct (swipeDownFires p s).
  - unfold emit_if. destruct (has_onSwipeDown p).
    + exists [EmitSwipeDown]. split; [reflexivity|]. cbn. tauto.
    + exists []. split; [rewrite app_nil_r; reflexivity|]. cbn.
      split; [tauto | intros [H _]; discriminate H].
  - cbn zeta. unfold imageDidMove, emit_if.
    pose proof (settle_emitted p s) as E.
    destruct (has_onMove p).
    + eexists. split; [cbn; rewrite E; reflexivity|].
      split; [intros [H|H]; [discriminate H | destruct H] | intros [_ H]; discriminate H].
    + exists []. split; [rewrite app_nil_r; exact E|].
      split; [intros [] | intros [_ H]; discriminate H].
Qed.

(** The swipe-down test, as a proposition. *)
Lemma swipeDownFires_iff (p : Props) (s : State) :
  swipeDownFires p s = true <->
  enableSwipeDown p = true /\ ~ swipeDownThreshold p == 0 /\
  swipeDownThreshold p < swipeDownOffset s.
Proof.
  unfold swipeDownFires. rewrite !andb_true_iff, negb_true_iff, Qltb_iff.
  split.
  - intros [[He Hz] Hl]. repeat split; try assumption.
    intro H. apply Qeq_bool_iff in H. congruence.
  - intros (He & Hz & Hl). repeat split; try assumption.
    destruct (Qeq_bool _ _) eqn:E; [|reflexivity].
    apply Qeq_bool_iff in E. contradiction.
Qed.

(** An event that moves [swipeDownOffset] to a new nonzero value. *)
Lemma step_swipe_offset (p : Props) (e : Event) (s s' : State) :
  step p e s = Some s' ->
  swipeDownOffset s' <> swipeDownOffset s -> ~ swipeDownOffset s' == 0 ->
  exists ev g, e = EvMove ev g /\ isDoubleClick s = false /\
    (List.length (changedTouches ev) <= 1)%nat /\
    panToMove p = true /\ enableSwipeDown p = true /\
    imageHeight p * scale s <= cropHeight p /\ isHorizontalWrap s' = false.
Proof.
  intros Hs Hne Hnz.
  destruct e as [now ev|ev g|ev g| | | | |c]; cbn [step] in Hs.
  - apply grant_counters in Hs as [_ E]. contradiction.
  - apply Some_eq in Hs. subst s'.
    destruct (move_counters p ev g s) as [[_ E] | (Hd & Hl & _ & E & Eh)];
      [contradiction|].
    destruct (moveSingle_sdo p g s) as [E' | (Hp & He & Hh & Hc)];
      [rewrite E, E' in Hne; contradiction|].
    exists ev, g. repeat split; try assumption. rewrite Eh. exact Hh.
  - apply Some_eq in Hs. subst s'.
    destruct (release_counters p ev g s) as [[_ E] | [_ E]];
      [contradiction | rewrite E in Hnz; destruct (Hnz (Qeq_refl 0))].
  - destruct (longPressTimeout s); apply Some_eq in Hs; subst s';
      contradiction Hne; [unfold emit_if; destruct (has_onLongPress p)|]; reflexivity.
  - destruct (singleClickTimeout s); apply Some_eq in Hs; subst s';
      contradiction Hne; [unfold emit_if; destruct (has_onClick p)|]; reflexivity.
  - apply Some_eq in Hs. subst s'. contradiction Hne. reflexivity.
  - apply Some_eq in Hs. subst s'. contradiction Hne. reflexivity.
  - apply Some_eq in Hs. subst s'. contradiction Hne. reflexivity.
Qed.

(** A pinch step with a recorded previous span. *)
Lemma pinchZoom_distance (p : Props) (s : State) :
  zoomCurrentDistance (pinchZoom p s) = zoomCurrentDistance s.
Proof. unfold pinchZoom. destruct (zoomLastDistance s); reflexivity. Qed.

(** The result of a pinch step with a recorded previous span. *)
Lemma pinchZoom_step (p : Props) (s : State) (last : Q) :
  zoomLastDistance s = Some last ->
  let z0 := scale s + (zoomCurrentDistance s - last) / 200 in
  let z := if Qltb (maxScale p) (if Qltb z0 (minScale p) then minScale p else z0)
           then maxScale p else if Qltb z0 (minScale p) then minScale p else z0 in
  scale (pinchZoom p s) = z /\
  positionX (pinchZoom p s) = positionX s - centerDiffX s * (z - scale s) / z /\
  positionY (pinchZoom p s) = positionY s - centerDiffY s * (z - scale s) / z.
Proof.
  intro H. unfold pinchZoom. rewrite H. split; [reflexivity|]. split; reflexivity.
Qed.

(** A move with two touches is the [moveMulti] branch. *)
Lemma move_two_touches (p : Props) (ev : NativeEvent) (g : GestureState) (s : State)
    (t0 t1 : Touch) (rest : list Touch) :
  isDoubleClick s = false -> changedTouches ev = t0 :: t1 :: rest ->
  exists l, onPanResponderMove p ev g s =
              set_emitted (emitted (moveMulti p ev s) ++ l) (moveMulti p ev s).
Proof.
  intros Hd Hev. unfold onPanResponderMove. rewrite Hd, Hev.
  change (Nat.leb (List.length (t0 :: t1 :: rest)) 1) with false.
  apply imageDidMove_frame.
Qed.

(** The whole drag then release of [swipeDownDrag]: a swipe-down dismiss. *)
Definition swipeDownDismiss : list Event :=
  swipeDownDrag ++ [EvRelease (oneFinger 10 70) (gesture 0 60)].

(** A one-finger drag of 3 to the right. *)
Definition smallSideDrag : list Event :=
  [EvGrant 1000 (oneFinger 10 10); EvMove (oneFinger 10 10) (gesture 0 0);
   EvMove (oneFinger 13 10) (gesture 3 0)].

(** [demoProps] with swipe-down dismissal left without a threshold. *)
Definition zeroThresholdProps : Props := withThreshold 0 demoProps.

(** ** Claims *)

(** C1 (corrected). panResponderReleaseResolve zeroes both overflow counters,
    [horizontalWholeOuterCounter] and [swipeDownOffset], except when the
    swipe-down dismiss branch fires: that branch returns early ("Stop reset.")
    and leaves both counters as they were. *)
Theorem releaseResolve_resets_overflow (p : Props) (s : State) :
  let s' := panResponderReleaseResolve p s in
  if swipeDownFires p s
  then horizontalWholeOuterCounter s' = horizontalWholeOuterCounter s /\
       swipeDownOffset s' = swipeDownOffset s
  else horizontalWholeOuterCounter s' = 0 /\ swipeDownOffset s' = 0.
Proof.
  cbv zeta. pose proof (resolve_counters p s) as R.
  destruct (swipeDownFires p s); [|exact R].
  destruct R as [l ->]. split; reflexivity.
Qed.

(** C1 counterexample: after a 60-unit swipe-down with threshold 50 the
    dismiss branch fires and [swipeDownOffset] stays 60 after the resolve. *)
Lemma releaseResolve_dismiss_keeps_offset :
  run demoProps swipeDownDrag initState = Some (stateAfter demoProps swipeDownDrag) /\
  swipeDownFires demoProps (stateAfter demoProps swipeDownDrag) = true /\
  ~ swipeDownOffset (panResponderReleaseResolve demoProps (stateAfter demoProps swipeDownDrag)) == 0.
Proof.
  split; [vm_compute; reflexivity|].
  split; [vm_compute; reflexivity|].
  vm_compute. intro H. discriminate H.
Qed.

(** C6. Along every run from the initial state, with a non-negative
    [maxOverflow], [|horizontalWholeOuterCounter| <= maxOverflow]: every move
    re-clamps the counter after the drag and the epsilon nudge, and no other
    event raises it. *)
Theorem horizontal_overflow_bounded (p : Props) (es : list Event) (s : State) :
  0 <= maxOverflow p ->
  run p es initState = Some s ->
  Qabs (horizontalWholeOuterCounter s) <= maxOverflow p.
Proof.
  intros Hm Hrun. apply (run_overflow_bound p es initState s Hm); [|exact Hrun].
  exact Hm.
Qed.

Lemma horizontal_overflow_bounded_witness :
  0 <= maxOverflow demoProps /\
  run demoProps sideDrag initState = Some (stateAfter demoProps sideDrag) /\
  Qabs (horizontalWholeOuterCounter (stateAfter demoProps sideDrag)) <= maxOverflow demoProps.
Proof.
  assert (Hm : 0 <= maxOverflow demoProps) by (apply Qle_bool_iff; reflexivity).
  assert (Hr : run demoProps sideDrag initState = Some (stateAfter demoProps sideDrag))
    by (vm_compute; reflexivity).
  split; [exact Hm|]. split; [exact Hr|].
  exact (horizontal_overflow_bounded demoProps sideDrag _ Hm Hr).
Defined.

(** C9. didCenterOnChange is false exactly when x, y and scale agree, and
    componentDidUpdate restarts the centerOn tween only when it is true; so
    an update that repeats the previous centerOn parameters is ignored. *)
Theorem centerOn_repeat_ignored (a b : ICenterOn) (s : State) :
  (didCenterOnChange a b = false <->
   co_x a == co_x b /\ co_y a == co_y b /\ co_scale a == co_scale b) /\
  componentDidUpdate (Some a) (Some b) s =
    (if didCenterOnChange a b then centerOnM b s else s) /\
  componentDidUpdate (Some b) (Some b) s = s.
Proof.
  split; [|split; [reflexivity|]].
  - unfold didCenterOnChange.
    rewrite !orb_false_iff, !negb_false_iff, !Qeq_bool_iff. tauto.
  - unfold componentDidUpdate, didCenterOnChange. rewrite !Qeq_bool_self. reflexivity.
Qed.

(** C10. resetScale zeroes positionX and positionY, sets scale to 1 and the
    animated scale to 1, and leaves the animated positions as they were;
    reset writes all three animated values. *)
Theorem resetScale_keeps_animated_position (s : State) :
  positionX (resetScale s) = 0 /\ positionY (resetScale s) = 0 /\
  scale (resetScale s) = 1 /\ animatedScale (resetScale s) = 1 /\
  animatedPositionX (resetScale s) = animatedPositionX s /\
  animatedPositionY (resetScale s) = animatedPositionY s /\
  animatedScale (reset s) = 1 /\ animatedPositionX (reset s) = 0 /\
  animatedPositionY (reset s) = 0.
Proof. repeat split. Qed.

(** C7 (corrected). onPanResponderGrant does not reset the overflow
    counters: [horizontalWholeOuterCounter] and [swipeDownOffset] keep the
    values they had before the grant, whatever the grant event. *)
Theorem grant_keeps_overflow (p : Props) (now : Q) (ev : NativeEvent) (s s' : State) :
  onPanResponderGrant p now ev s = Some s' ->
  horizontalWholeOuterCounter s' = horizontalWholeOuterCounter s /\
  swipeDownOffset s' = swipeDownOffset s.
Proof. apply grant_counters. Qed.

Lemma grant_keeps_overflow_witness :
  let s := stateAfter demoProps swipeDownDismiss in
  let s' := stateAfter demoProps (swipeDownDismiss ++ [EvGrant 3000 (oneFinger 10 10)]) in
  onPanResponderGrant demoProps 3000 (oneFinger 10 10) s = Some s' /\
  horizontalWholeOuterCounter s' = horizontalWholeOuterCounter s /\
  swipeDownOffset s' = swipeDownOffset s.
Proof.
  cbv zeta.
  assert (H : onPanResponderGrant demoProps 3000 (oneFinger 10 10)
                (stateAfter demoProps swipeDownDismiss) =
              Some (stateAfter demoProps (swipeDownDismiss ++ [EvGrant 3000 (oneFinger 10 10)])))
    by (vm_compute; reflexivity).
  split; [exact H|]. exact (grant_keeps_overflow _ _ _ _ _ H).
Defined.

(** C7 counterexample: after a swipe-down dismiss, the next touch starts a
    gesture whose [swipeDownOffset] is still 60. *)
Lemma grant_keeps_swipe_offset :
  run demoProps (swipeDownDismiss ++ [EvGrant 3000 (oneFinger 10 10)]) initState =
    Some (stateAfter demoProps (swipeDownDismiss ++ [EvGrant 3000 (oneFinger 10 10)])) /\
  In EmitSwipeDown (emitted (stateAfter demoProps swipeDownDismiss)) /\
  ~ swipeDownOffset (stateAfter demoProps (swipeDownDismiss ++ [EvGrant 3000 (oneFinger 10 10)])) == 0.
Proof.
  split; [vm_compute; reflexivity|].
  split; [vm_compute; tauto|].
  vm_compute. intro H. discriminate H.
Qed.

(** C8 (corrected). In a single-touch move, [isHorizontalWrap] becomes true
    when panToMove is on, [swipeDownOffset] is 0 and the per-move
    [|diffX| > |diffY|], whatever the accumulated motion; the 5-unit
    threshold on the accumulated counters only cancels the long-press timer. *)
Theorem single_move_horizontal_flag (p : Props) (ev : NativeEvent) (g : GestureState) (s : State) :
  isDoubleClick s = false ->
  (List.length (changedTouches ev) <= 1)%nat ->
  let diffX := moveDiff (gs_dx g) (lastPositionX s) in
  let diffY := moveDiff (gs_dy g) (lastPositionY s) in
  let s' := onPanResponderMove p ev g s in
  isHorizontalWrap s' =
    isHorizontalWrap s ||
    (panToMove p && Qeq_bool (swipeDownOffset s) 0 && Qltb (Qabs diffY) (Qabs diffX)) /\
  longPressTimeout s' =
    (if Qltb 5 (Qabs (horizontalWholeCounter s + diffX)) ||
        Qltb 5 (Qabs (verticalWholeCounter s + diffY))
     then None else longPressTimeout s).
Proof.
  intros Hd Hl. cbv zeta. unfold onPanResponderMove. rewrite Hd.
  apply Nat.leb_le in Hl. rewrite Hl.
  destruct (imageDidMove_frame p "onPanResponderMove" (moveSingle p g s)) as [l ->].
  cbn [isHorizontalWrap longPressTimeout set_emitted].
  unfold moveSingle. cbn zeta.
  match goal with
  | |- context [if panToMove p then _ else ?s0] =>
      assert (E0 : isHorizontalWrap s0 = isHorizontalWrap s /\
                   swipeDownOffset s0 = swipeDownOffset s /\
                   longPressTimeout s0 =
                     (if Qltb 5 (Qabs (horizontalWholeCounter s + moveDiff (gs_dx g) (lastPositionX s))) ||
                         Qltb 5 (Qabs (verticalWholeCounter s + moveDiff (gs_dy g) (lastPositionY s)))
                      then None else longPressTimeout s))
        by (destruct (_ || _); repeat split);
      destruct E0 as (F1 & F2 & F3);
      destruct (panToMove p); cbn [andb];
      [rewrite F2; destruct (Qeq_bool (swipeDownOffset s) 0); cbn [andb] |
       rewrite orb_false_r; split; assumption]
  end.
  - match goal with
    | |- context [panVertical p ?d (panHorizontal p ?dx ?dy ?s1)] =>
        destruct (panHorizontal_flags p dx dy s1) as [G1 G2];
        destruct (panVertical_frame p d (panHorizontal p dx dy s1)) as (_ & -> & _);
        rewrite panVertical_timer
    end.
    rewrite G1, G2, F1. split; [reflexivity | exact F3].
  - rewrite orb_false_r.
    match goal with
    | |- context [panVertical p ?d ?s1] =>
        destruct (panVertical_frame p d s1) as (_ & -> & _); rewrite panVertical_timer
    end.
    split; assumption.
Qed.

Lemma single_move_horizontal_flag_witness :
  let s := stateAfter demoProps (firstn 2 smallSideDrag) in
  isDoubleClick s = false /\
  (List.length (changedTouches (oneFinger 13 10)) <= 1)%nat /\
  isHorizontalWrap (onPanResponderMove demoProps (oneFinger 13 10) (gesture 3 0) s) = true.
Proof.
  cbv zeta.
  assert (Hd : isDoubleClick (stateAfter demoProps (firstn 2 smallSideDrag)) = false)
    by (vm_compute; reflexivity).
  assert (Hl : (List.length (changedTouches (oneFinger 13 10)) <= 1)%nat) by (cbn; lia).
  split; [exact Hd|]. split; [exact Hl|].
  rewrite (proj1 (single_move_horizontal_flag demoProps (oneFinger 13 10) (gesture 3 0) _ Hd Hl)).
  vm_compute. reflexivity.
Defined.

(** C8 counterexample: a drag of 3 units (under the 5-unit threshold) sets
    [isHorizontalWrap] and leaves the long-press timer armed. *)
Lemma small_drag_flags_horizontal :
  run demoProps smallSideDrag initState = Some (stateAfter demoProps smallSideDrag) /\
  isHorizontalWrap (stateAfter demoProps smallSideDrag) = true /\
  Qabs (horizontalWholeCounter (stateAfter demoProps smallSideDrag)) <= 5 /\
  Qabs (verticalWholeCounter (stateAfter demoProps smallSideDrag)) <= 5 /\
  longPressTimeout (stateAfter demoProps smallSideDrag) <> None.
Proof.
  split; [vm_compute; reflexivity|].
  split; [vm_compute; reflexivity|].
  split; [apply Qle_bool_iff; vm_compute; reflexivity|].
  split; [apply Qle_bool_iff; vm_compute; reflexivity|].
  vm_compute. discriminate.
Qed.

(** C4 (corrected). The double-click zoom toggle resets scale to 1 and the
    offset to (0,0) from a scale other than 1, and from scale 1 zooms to 2
    with offset ((cropWidth/2 - x)/2, (cropHeight/2 - y)/2) for the tap point
    (x, y). Two toggles at the same point therefore end at scale 1 and
    offset (0,0) when the starting scale is 1, and at scale 2 otherwise. *)
Theorem doubleClickZoom_toggle (p : Props) (s : State) :
  let s1 := doubleClickZoom p s in
  let s2 := doubleClickZoom p s1 in
  doubleClickX s1 = doubleClickX s /\ doubleClickY s1 = doubleClickY s /\
  (~ scale s == 1 ->
   scale s1 = 1 /\ positionX s1 = 0 /\ positionY s1 = 0 /\ scale s2 = 2) /\
  (scale s == 1 ->
   scale s1 = 2 /\
   positionX s1 == (cropWidth p / 2 - doubleClickX s) / 2 /\
   positionY s1 == (cropHeight p / 2 - doubleClickY s) / 2 /\
   scale s2 = 1 /\ positionX s2 = 0 /\ positionY s2 = 0).
Proof.
  cbv zeta.
  destruct (Qltb 1 (scale s) || Qltb (scale s) 1) eqn:E.
  - assert (Hn : ~ scale s == 1) by (apply toggle_test; exact E).
    rewrite (doubleClickZoom_reset p s E).
    rewrite (doubleClickZoom_zoom p (set_positionY 0 (set_positionX 0 (set_scale 1 s))))
      by reflexivity.
    split; [reflexivity|]. split; [reflexivity|].
    split; [intros _; repeat split | intro H; contradiction].
  - assert (Hs : scale s == 1).
    { destruct (Qeq_dec (scale s) 1) as [H|H]; [exact H|].
      apply toggle_test in H. congruence. }
    rewrite (doubleClickZoom_zoom p s E).
    rewrite doubleClickZoom_reset by reflexivity.
    split; [reflexivity|]. split; [reflexivity|].
    split; [intro H; contradiction|].
    intros _. split; [reflexivity|].
    split; [cbn [positionX set_positionY set_positionX set_scale];
            rewrite Hs; unfold Qdiv; ring|].
    split; [cbn [positionY set_positionY set_positionX set_scale];
            rewrite Hs; unfold Qdiv; ring|].
    repeat split.
Qed.

Lemma doubleClickZoom_toggle_witness :
  scale initState == 1 /\
  scale (doubleClickZoom demoProps (doubleClickZoom demoProps initState)) = 1 /\
  positionX (doubleClickZoom demoProps (doubleClickZoom demoProps initState)) = 0.
Proof.
  assert (Hs : scale initState == 1) by reflexivity.
  destruct (doubleClickZoom_toggle demoProps initState) as (_ & _ & _ & H).
  destruct (H Hs) as (_ & _ & _ & H2 & H3 & _).
  split; [exact Hs|]. split; [exact H2 | exact H3].
Defined.

(** C4 counterexample: from scale 3 (set by centerOn), two toggles end at
    scale 2, not 1. *)
Lemma doubleClickZoom_twice_from_three :
  scale (doubleClickZoom demoProps
           (doubleClickZoom demoProps (centerOnM (mkCenterOn 0 0 3 0) initState))) = 2.
Proof. vm_compute. reflexivity. Qed.

(** C3. A two-finger move with a recorded previous span [last] sets the
    scale to [clamp(scale + (span - last)/200, minScale, maxScale)], where
    [span] is the new span of the two touches, and records [span] as the
    previous span. *)
Theorem pinch_scale_clamped (p : Props) (ev : NativeEvent) (g : GestureState) (s : State)
    (t0 t1 : Touch) (rest : list Touch) (last : Q) :
  isDoubleClick s = false ->
  pinchToZoom p = true ->
  changedTouches ev = t0 :: t1 :: rest ->
  zoomLastDistance s = Some last ->
  scale (onPanResponderMove p ev g s) ==
    clampSpec (scale s + (touchSpan t0 t1 - last) / 200) (minScale p) (maxScale p) /\
  zoomLastDistance (onPanResponderMove p ev g s) = Some (touchSpan t0 t1).
Proof.
  intros Hd Hp Hev Hl.
  destruct (move_two_touches p ev g s t0 t1 rest Hd Hev) as [l ->].
  unfold moveMulti. rewrite Hp, Hev.
  set (X := set_zoomCurrentDistance (touchSpan t0 t1) (set_longPressTimeout None s)).
  assert (HX : zoomLastDistance X = Some last) by exact Hl.
  destruct (pinchZoom_step p X last HX) as (Hz & _ & _).
  split.
  - change (scale (pinchZoom p X) ==
              clampSpec (scale s + (touchSpan t0 t1 - last) / 200) (minScale p) (maxScale p)).
    rewrite Hz. apply pinch_clamp.
  - change (Some (zoomCurrentDistance (pinchZoom p X)) = Some (touchSpan t0 t1)).
    rewrite pinchZoom_distance. reflexivity.
Qed.

Lemma pinch_scale_clamped_witness :
  let s := stateAfter demoProps pinchStart in
  isDoubleClick s = false /\ pinchToZoom demoProps = true /\
  changedTouches pinchSpread = [touchAt 80 150; touchAt 220 150] /\
  zoomLastDistance s = Some (1000 # 10) /\
  scale s == 1 /\ touchSpan (touchAt 80 150) (touchAt 220 150) == 140 /\
  scale (onPanResponderMove demoProps pinchSpread (gesture 0 0) s) == 6 # 5.
Proof.
  cbv zeta.
  assert (Hd : isDoubleClick (stateAfter demoProps pinchStart) = false)
    by (vm_compute; reflexivity).
  assert (Hp : pinchToZoom demoProps = true) by reflexivity.
  assert (Hev : changedTouches pinchSpread = [touchAt 80 150; touchAt 220 150])
    by reflexivity.
  assert (Hl : zoomLastDistance (stateAfter demoProps pinchStart) = Some (1000 # 10))
    by (vm_compute; reflexivity).
  split; [exact Hd|]. split; [exact Hp|]. split; [exact Hev|]. split; [exact Hl|].
  split; [vm_compute; reflexivity|]. split; [vm_compute; reflexivity|].
  destruct (pinch_scale_clamped demoProps pinchSpread (gesture 0 0) _ _ _ [] _ Hd Hp Hev Hl)
    as [H _].
  rewrite H. vm_compute. reflexivity.
Defined.

(** C5. A two-finger move with [centerDiffX = centerDiffY = 0] leaves
    positionX and positionY unchanged, whatever the scale change. *)
Theorem pinch_at_center_keeps_position (p : Props) (ev : NativeEvent) (g : GestureState)
    (s : State) (t0 t1 : Touch) (rest : list Touch) :
  isDoubleClick s = false ->
  changedTouches ev = t0 :: t1 :: rest ->
  centerDiffX s == 0 -> centerDiffY s == 0 ->
  positionX (onPanResponderMove p ev g s) == positionX s /\
  positionY (onPanResponderMove p ev g s) == positionY s.
Proof.
  intros Hd Hev Hx Hy.
  destruct (move_two_touches p ev g s t0 t1 rest Hd Hev) as [l ->].
  unfold moveMulti. rewrite Hev.
  destruct (pinchToZoom p); [|split; reflexivity].
  set (X := set_zoomCurrentDistance (touchSpan t0 t1) (set_longPressTimeout None s)).
  destruct (zoomLastDistance X) as [last|] eqn:HX.
  - destruct (pinchZoom_step p X last HX) as (_ & Ex & Ey).
    change (positionX (pinchZoom p X) == positionX s /\
            positionY (pinchZoom p X) == positionY s).
    rewrite Ex, Ey.
    change (positionX X) with (positionX s). change (positionY X) with (positionY s).
    change (centerDiffX X) with (centerDiffX s). change (centerDiffY X) with (centerDiffY s).
    split; [rewrite Hx | rewrite Hy]; unfold Qdiv; ring.
  - change (positionX (pinchZoom p X) == positionX s /\
            positionY (pinchZoom p X) == positionY s).
    unfold pinchZoom. rewrite HX. split; reflexivity.
Qed.

Lemma pinch_at_center_keeps_position_witness :
  let s := stateAfter demoProps pinchStart in
  isDoubleClick s = false /\
  changedTouches pinchSpread = [touchAt 80 150; touchAt 220 150] /\
  centerDiffX s == 0 /\ centerDiffY s == 0 /\
  positionX (onPanResponderMove demoProps pinchSpread (gesture 0 0) s) == positionX s.
Proof.
  cbv zeta.
  assert (Hd : isDoubleClick (stateAfter demoProps pinchStart) = false)
    by (vm_compute; reflexivity).
  assert (Hev : changedTouches pinchSpread = [touchAt 80 150; touchAt 220 150])
    by reflexivity.
  assert (Hx : centerDiffX (stateAfter demoProps pinchStart) == 0) by (vm_compute; reflexivity).
  assert (Hy : centerDiffY (stateAfter demoProps pinchStart) == 0) by (vm_compute; reflexivity).
  split; [exact Hd|]. split; [exact Hev|]. split; [exact Hx|]. split; [exact Hy|].
  exact (proj1 (pinch_at_center_keeps_position demoProps pinchSpread (gesture 0 0) _ _ _ []
                  Hd Hev Hx Hy)).
Defined.

(** C2 (corrected). At release, panResponderReleaseResolve calls
    onSwipeDown exactly when the prop is given, swipe-down is enabled,
    [swipeDownThreshold] is nonzero (a JS truthiness test) and
    [swipeDownOffset > swipeDownThreshold]; a threshold of 0 never
    dismisses. An event can move [swipeDownOffset] to a new nonzero value
    only as a single-touch move with panToMove and swipe-down enabled,
    [imageHeight * scale <= cropHeight], and the gesture not flagged
    horizontal after the move. *)
Theorem swipeDown_dismiss_condition :
  (forall (p : Props) (s : State),
     exists l, emitted (panResponderReleaseResolve p s) = emitted s ++ l /\
       (In EmitSwipeDown l <->
          has_onSwipeDown p = true /\ enableSwipeDown p = true /\
          ~ swipeDownThreshold p == 0 /\ swipeDownThreshold p < swipeDownOffset s)) /\
  (forall (p : Props) (e : Event) (s s' : State),
     step p e s = Some s' ->
     swipeDownOffset s' <> swipeDownOffset s -> ~ swipeDownOffset s' == 0 ->
     exists ev g, e = EvMove ev g /\ isDoubleClick s = false /\
       (List.length (changedTouches ev) <= 1)%nat /\
       panToMove p = true /\ enableSwipeDown p = true /\
       imageHeight p * scale s <= cropHeight p /\ isHorizontalWrap s' = false).
Proof.
  split.
  - intros p s. destruct (resolve_emitted p s) as (l & E & H).
    exists l. split; [exact E|]. rewrite H, swipeDownFires_iff. reflexivity.
  - exact step_swipe_offset.
Qed.

Lemma swipeDown_dismiss_condition_witness :
  let s := stateAfter demoProps (firstn 2 swipeDownDrag) in
  let e := EvMove (oneFinger 10 70) (gesture 0 60) in
  step demoProps e s = Some (stateAfter demoProps swipeDownDrag) /\
  swipeDownOffset (stateAfter demoProps swipeDownDrag) <> swipeDownOffset s /\
  ~ swipeDownOffset (stateAfter demoProps swipeDownDrag) == 0 /\
  exists ev g, e = EvMove ev g /\ isDoubleClick s = false /\
    (List.length (changedTouches ev) <= 1)%nat /\
    panToMove demoProps = true /\ enableSwipeDown demoProps = true /\
    imageHeight demoProps * scale s <= cropHeight demoProps /\
    isHorizontalWrap (stateAfter demoProps swipeDownDrag) = false.
Proof.
  cbv zeta.
  assert (H1 : step demoProps (EvMove (oneFinger 10 70) (gesture 0 60))
                 (stateAfter demoProps (firstn 2 swipeDownDrag)) =
               Some (stateAfter demoProps swipeDownDrag)) by (vm_compute; reflexivity).
  assert (H2 : swipeDownOffset (stateAfter demoProps swipeDownDrag) <>
               swipeDownOffset (stateAfter demoProps (firstn 2 swipeDownDrag)))
    by (vm_compute; intro H; discriminate H).
  assert (H3 : ~ swipeDownOffset (stateAfter demoProps swipeDownDrag) == 0)
    by (vm_compute; intro H; discriminate H).
  split; [exact H1|]. split; [exact H2|]. split; [exact H3|].
  exact (proj2 swipeDown_dismiss_condition demoProps _ _ _ H1 H2 H3).
Defined.

(** With [swipeDownThreshold = 0] a downward drag of 60 ends with
    [swipeDownOffset = 60 > 0], swipe-down enabled and onSwipeDown given,
    yet the release does not call onSwipeDown. *)
Lemma zero_threshold_never_dismisses :
  let s := stateAfter zeroThresholdProps swipeDownDrag in
  enableSwipeDown zeroThresholdProps = true /\ has_onSwipeDown zeroThresholdProps = true /\
  swipeDownThreshold zeroThresholdProps < swipeDownOffset s /\
  ~ In EmitSwipeDown (emitted (panResponderReleaseResolve zeroThresholdProps s)).
Proof.
  cbv zeta.
  split; [reflexivity|]. split; [reflexivity|].
  split; [vm_compute; reflexivity|].
  vm_compute. intro H. repeat (destruct H as [H|H]; [discriminate H|]). exact H.
Qed.

(** ** Further properties of the component *)

Lemma sqrt_toFixed1_compat (d d' : Q) : d == d' -> sqrt_toFixed1 d = sqrt_toFixed1 d'.
Proof.
  intro H. unfold sqrt_toFixed1.
  rewrite (Qfloor_comp (400 * d) (400 * d')) by (rewrite H; reflexivity).
  reflexivity.
Qed.

(** [sqrt_toFixed1 d] is [sqrt d] rounded to the nearest tenth. *)
Lemma sqrt_toFixed1_spec (d : Q) :
  let r := sqrt_toFixed1 d in
  0 <= r /\ 400 * d < (20 * r + 1) * (20 * r + 1) /\
  (r == 0 \/ (20 * r - 1) * (20 * r - 1) <= 400 * d).
Proof.
  cbv zeta. unfold sqrt_toFixed1. cbv zeta.
  set (m := Qfloor (400 * d)). set (k := Z.sqrt m). set (n := ((k + 1) / 2)%Z).
  assert (Hm1 : inject_Z m <= 400 * d) by apply Qfloor_le.
  assert (Hm2 : 400 * d < inject_Z (m + 1)) by apply Qlt_floor.
  assert (Hk0 : (0 <= k)%Z) by apply Z.sqrt_nonneg.
  assert (Hk : (m < (k + 1) * (k + 1))%Z /\ (0 <= m -> k * k <= m)%Z).
  { destruct (Z.neg_nonneg_cases m) as [Hn | Hn].
    - unfold k. rewrite (Z.sqrt_neg m Hn). lia.
    - destruct (Z.sqrt_spec m Hn) as [A B]. fold k in A, B.
      rewrite <- Z.add_1_r in B. split; [exact B | intros _; exact A]. }
  destruct Hk as [Hk1 Hk2].
  assert (Hn : (2 * n - 1 <= k <= 2 * n)%Z).
  { unfold n. pose proof (Z.div_mod (k + 1) 2 ltac:(lia)).
    pose proof (Z.mod_pos_bound (k + 1) 2 ltac:(lia)). lia. }
  assert (E : 20 * (inject_Z n / 10) == inject_Z (2 * n)).
  { rewrite inject_Z_mult. field. }
  split; [|split].
  - apply Qle_shift_div_l; [reflexivity|]. rewrite Qmult_0_l.
    change 0 with (inject_Z 0). rewrite <- Zle_Qle. lia.
  - rewrite E. apply Qlt_le_trans with (1 := Hm2).
    change (inject_Z (2 * n) + 1) with (inject_Z (2 * n) + inject_Z 1).
    rewrite <- inject_Z_plus, <- inject_Z_mult, <- Zle_Qle. nia.
  - destruct (Z.eq_dec n 0) as [Hz | Hz].
    + left. rewrite Hz. reflexivity.
    + right. rewrite E. apply Qle_trans with (2 := Hm1).
      assert (Hm0 : (0 <= m)%Z).
      { destruct (Z.neg_nonneg_cases m) as [Hm | Hm]; [|exact Hm].
        exfalso. unfold k in Hn. rewrite (Z.sqrt_neg m Hm) in Hn. lia. }
      specialize (Hk2 Hm0).
      change (inject_Z (2 * n) - 1) with (inject_Z (2 * n) + inject_Z (-1)).
      rewrite <- inject_Z_plus, <- inject_Z_mult, <- Zle_Qle. nia.
Qed.

(** The squared distance inside [touchSpan] is that of the two page points. *)
Lemma touchSpan_distance (t0 t1 : Touch) :
  exists d, d == (t_pageX t0 - t_pageX t1) * (t_pageX t0 - t_pageX t1) +
                (t_pageY t0 - t_pageY t1) * (t_pageY t0 - t_pageY t1) /\
            touchSpan t0 t1 = sqrt_toFixed1 d.
Proof.
  unfold touchSpan.
  destruct (Qltb (t_locationX t1) (t_locationX t0));
  destruct (Qltb (t_locationY t1) (t_locationY t0));
  (eexists; split; [|reflexivity]); ring.
Qed.

(** X1. The span of a pinch does not depend on the order of the two touches. *)
Theorem touchSpan_sym (t0 t1 : Touch) : touchSpan t0 t1 = touchSpan t1 t0.
Proof.
  destruct (touchSpan_distance t0 t1) as (d & Hd & ->).
  destruct (touchSpan_distance t1 t0) as (d' & Hd' & ->).
  apply sqrt_toFixed1_compat. rewrite Hd, Hd'. ring.
Qed.

(** X2. The span of a pinch is the Euclidean distance [D] of the two touches'
    page points rounded to the nearest tenth: it is non-negative,
    [D < span + 1/20], and [span - 1/20 <= D] unless the span is 0. *)
Theorem touchSpan_rounds_distance (t0 t1 : Touch) :
  let D2 := (t_pageX t0 - t_pageX t1) * (t_pageX t0 - t_pageX t1) +
            (t_pageY t0 - t_pageY t1) * (t_pageY t0 - t_pageY t1) in
  let r := touchSpan t0 t1 in
  0 <= r /\ 400 * D2 < (20 * r + 1) * (20 * r + 1) /\
  (r == 0 \/ (20 * r - 1) * (20 * r - 1) <= 400 * D2).
Proof.
  cbv zeta. destruct (touchSpan_distance t0 t1) as (d & Hd & ->).
  rewrite <- Hd. apply sqrt_toFixed1_spec.
Qed.

Lemma doubleClickZoom_frame (p : Props) (s : State) :
  exists a b c, doubleClickZoom p s = set_positionY c (set_positionX b (set_scale a s)).
Proof. unfold doubleClickZoom. destruct (_ || _); eexists _, _, _; reflexivity. Qed.

Lemma grantDoubleClick_fields (p : Props) (ev : NativeEvent) (s s' : State) :
  grantDoubleClick p ev s = Some s' ->
  isDoubleClick s' = true /\ lastClickTime s' = 0 /\ longPressTimeout s' = None /\
  singleClickTimeout s' = singleClickTimeout s /\ zoomLastDistance s' = zoomLastDistance s /\
  isLongPress s' = isLongPress s /\ centerDiffX s' = centerDiffX s /\
  centerDiffY s' = centerDiffY s.
Proof.
  unfold grantDoubleClick.
  destruct (changedTouches ev) as [|t0 rest]; [discriminate|].
  destruct (enableDoubleClickZoom p); intro H; apply Some_eq in H; subst s'; emit_frame;
    [|repeat split].
  match goal with
  | |- context [start_parallel3 ?d ?s0] => destruct (start_parallel3_frame d s0) as [l1 ->]
  end.
  match goal with
  | |- context [imageDidMove p ?t ?s0] => destruct (imageDidMove_frame p t s0) as [l2 ->]
  end.
  match goal with
  | |- context [doubleClickZoom p ?x] => destruct (doubleClickZoom_frame p x) as (a & b & c & ->)
  end.
  repeat split.
Qed.

Lemma grantCenterDiff_frame (p : Props) (ev : NativeEvent) (s : State) :
  grantCenterDiff p ev s = s \/
  exists a b, grantCenterDiff p ev s = set_centerDiffY b (set_centerDiffX a s).
Proof.
  unfold grantCenterDiff.
  destruct (changedTouches ev) as [|t0 [|t1 rest]];
    [left; reflexivity | left; reflexivity | right; eexists _, _; reflexivity].
Qed.

(** The state a grant has built before its one-finger branch. *)
Lemma grant_prefix (p : Props) (now : Q) (ev : NativeEvent) (s : State) :
  let s0 := armLongPress ev (grantCenterDiff p ev (grantReset now s)) in
  lastClickTime s0 = lastClickTime s /\ singleClickTimeout s0 = None /\
  zoomLastDistance s0 = None /\ isLongPress s0 = false /\ isDoubleClick s0 = false /\
  longPressTimeout s0 =
    Some (mkClickInfo (ne_locationX ev) (ne_locationY ev) (ne_pageX ev) (ne_pageY ev)).
Proof.
  cbv zeta. destruct (grantCenterDiff_frame p ev (grantReset now s)) as [-> | (a & b & ->)];
    repeat split.
Qed.

(** What every grant leaves behind. *)
Lemma grant_fields (p : Props) (now : Q) (ev : NativeEvent) (s s' : State) :
  onPanResponderGrant p now ev s = Some s' ->
  singleClickTimeout s' = None /\ zoomLastDistance s' = None /\ isLongPress s' = false /\
  (isDoubleClick s' = false ->
   longPressTimeout s' =
     Some (mkClickInfo (ne_locationX ev) (ne_locationY ev) (ne_pageX ev) (ne_pageY ev))).
Proof.
  unfold onPanResponderGrant. cbn zeta.
  destruct (grant_prefix p now ev s) as (P1 & P2 & P3 & P4 & P5 & P6).
  destruct (Nat.leb _ _); [destruct (Qltb _ _)|]; intro H.
  - apply grantDoubleClick_fields in H as (D1 & _ & _ & D4 & D5 & D6 & _).
    rewrite D4, D5, D6. split; [exact P2|]. split; [exact P3|]. split; [exact P4|].
    intro H. rewrite D1 in H. discriminate H.
  - apply Some_eq in H. subst s'.
    split; [exact P2|]. split; [exact P3|]. split; [exact P4|]. intros _. exact P6.
  - apply Some_eq in H. subst s'.
    split; [exact P2|]. split; [exact P3|]. split; [exact P4|]. intros _. exact P6.
Qed.

(** The double-click test of a one-finger grant. *)
Lemma grant_timing_one (p : Props) (now : Q) (ev : NativeEvent) (s s' : State) (t0 : Touch) :
  changedTouches ev = [t0] ->
  onPanResponderGrant p now ev s = Some s' ->
  isDoubleClick s' = Qltb (now - lastClickTime s) (doubleClickInterval p) /\
  lastClickTime s' = (if Qltb (now - lastClickTime s) (doubleClickInterval p) then 0 else now).
Proof.
  intro Hev. unfold onPanResponderGrant. cbn zeta. rewrite Hev.
  change (Nat.leb (List.length [t0]) 1) with true. cbv iota.
  destruct (grant_prefix p now ev s) as (P1 & _ & _ & _ & P5 & _).
  rewrite P1.
  destruct (Qltb (now - lastClickTime s) (doubleClickInterval p)); intro H.
  - apply grantDoubleClick_fields in H as (D1 & D2 & _). rewrite D1, D2. split; reflexivity.
  - apply Some_eq in H. subst s'. split; [exact P5 | reflexivity].
Qed.

Lemma absorbOverflow_lct (p : Props) (d : Q) (s : State) :
  lastClickTime (snd (absorbOverflow p d s)) = lastClickTime s.
Proof.
  unfold absorbOverflow, horizontalOuterRangeOffset.
  split_ifs; cbn; emit_frame; reflexivity.
Qed.

Lemma panHorizontal_lct (p : Props) (dx dy : Q) (s : State) :
  lastClickTime (panHorizontal p dx dy s) = lastClickTime s.
Proof.
  unfold panHorizontal, reportOverflow, limitOverflow, horizontalOuterRangeOffset,
    panHorizontalMove.
  cbn zeta.
  destruct (Qltb (Qabs dy) (Qabs dx));
  match goal with
  | |- context [absorbOverflow p dx ?s0] =>
      pose proof (absorbOverflow_lct p dx s0) as E1;
      destruct (absorbOverflow p dx s0) as [d1 s1]; cbn in E1
  end;
  split_ifs; cbn; emit_frame; cbn; congruence.
Qed.

Lemma panVertical_lct (p : Props) (dy : Q) (s : State) :
  lastClickTime (panVertical p dy s) = lastClickTime s.
Proof. unfold panVertical. split_ifs; reflexivity. Qed.

Lemma moveSingle_lct (p : Props) (g : GestureState) (s : State) :
  lastClickTime (moveSingle p g s) = lastClickTime s.
Proof.
  unfold moveSingle. cbn zeta.
  destruct (panToMove p); [|destruct (_ || _); reflexivity].
  rewrite panVertical_lct.
  destruct (Qeq_bool _ 0); [rewrite panHorizontal_lct|]; destruct (_ || _); reflexivity.
Qed.

Lemma moveMulti_lct (p : Props) (ev : NativeEvent) (s : State) :
  lastClickTime (moveMulti p ev s) = lastClickTime s.
Proof.
  unfold moveMulti, pinchZoom.
  destruct (pinchToZoom p); [|reflexivity].
  destruct (changedTouches ev) as [|t0 [|t1 rest]]; cbn; try reflexivity.
  destruct (zoomLastDistance s); reflexivity.
Qed.

Lemma move_lct (p : Props) (ev : NativeEvent) (g : GestureState) (s : State) :
  lastClickTime (onPanResponderMove p ev g s) = lastClickTime s.
Proof.
  unfold onPanResponderMove.
  destruct (isDoubleClick s); [reflexivity|].
  destruct (Nat.leb _ _);
  match goal with
  | |- context [imageDidMove p ?t ?s0] => destruct (imageDidMove_frame p t s0) as [l ->]
  end; [exact (moveSingle_lct p g s) | exact (moveMulti_lct p ev s)].
Qed.

Lemma resolve_lct (p : Props) (s : State) :
  lastClickTime (panResponderReleaseResolve p s) = lastClickTime s.
Proof.
  unfold panResponderReleaseResolve.
  destruct (swipeDownFires p s); [emit_frame; reflexivity|].
  cbn zeta.
  match goal with
  | |- context [imageDidMove p ?t ?s0] => destruct (imageDidMove_frame p t s0) as [l ->]
  end.
  cbn [lastClickTime set_emitted set_swipeDownOffset set_horizontalWholeOuterCounter].
  unfold settleCenterFocus, settleClampX, settleClampY, settleShortY, settleNarrowX,
    settleMinScale.
  cbn zeta. split_ifs; reflexivity.
Qed.

Lemma release_lct (p : Props) (ev : NativeEvent) (g : GestureState) (s : State) :
  lastClickTime (onPanResponderRelease p ev g s) = lastClickTime s.
Proof.
  unfold onPanResponderRelease. cbn zeta.
  destruct (isDoubleClick _); [reflexivity|].
  destruct (isLongPress _); [reflexivity|].
  destruct (_ && _); [reflexivity|].
  rewrite resolve_lct. emit_frame. reflexivity.
Qed.

(** Only a grant writes [lastClickTime]. *)
Lemma run_lct (p : Props) (es : list Event) (s s' : State) :
  forallb (fun e => negb (isGrant e)) es = true ->
  run p es s = Some s' -> lastClickTime s' = lastClickTime s.
Proof.
  revert s. induction es as [|e es IH]; intros s Hg Hr.
  - cbn in Hr. apply Some_eq in Hr. subst s'. reflexivity.
  - cbn [forallb] in Hg. apply andb_prop in Hg as [He Hg].
    cbn [run] in Hr. destruct (step p e s) as [s1|] eqn:Hs; [|discriminate Hr].
    rewrite (IH s1 Hg Hr).
    destruct e as [now ev|ev g|ev g| | | | |c]; cbn [step] in Hs;
      [discriminate He| | | | | | |]; try (apply Some_eq in Hs; subst s1).
    + apply move_lct.
    + apply release_lct.
    + destruct (longPressTimeout s); apply Some_eq in Hs; subst s1;
        [unfold emit_if; destruct (has_onLongPress p)|]; reflexivity.
    + destruct (singleClickTimeout s); apply Some_eq in Hs; subst s1;
        [unfold emit_if; destruct (has_onClick p)|]; reflexivity.
    + reflexivity.
    + reflexivity.
    + reflexivity.
Qed.

Lemma run_app (p : Props) (es1 es2 : list Event) (s : State) :
  run p (es1 ++ es2) s = match run p es1 s with Some s' => run p es2 s' | None => None end.
Proof.
  revert s. induction es1 as [|e es IH]; intro s; [reflexivity|].
  cbn. destruct (step p e s); [apply IH | reflexivity].
Qed.

(** A release during a double-click gesture only clears the long-press timer. *)
Lemma release_double_click (p : Props) (ev : NativeEvent) (g : GestureState) (s : State) :
  isDoubleClick s = true -> onPanResponderRelease p ev g s = set_longPressTimeout None s.
Proof.
  intro Hd. unfold onPanResponderRelease. cbn zeta.
  change (isDoubleClick (set_longPressTimeout None s)) with (isDoubleClick s).
  rewrite Hd. reflexivity.
Qed.

Lemma clamp_bounds (lo hi z : Q) :
  lo <= hi ->
  lo <= (if Qltb hi (if Qltb z lo then lo else z) then hi
         else if Qltb z lo then lo else z) <= hi.
Proof.
  intro Hle.
  destruct (Qltb z lo) eqn:E1; destruct (Qltb hi _) eqn:E2.
  - apply Qltb_iff in E2. exfalso. exact (Qlt_not_le _ _ E2 Hle).
  - split; [apply Qle_refl | exact Hle].
  - split; [exact Hle | apply Qle_refl].
  - apply Qltb_false in E1. apply Qltb_false in E2. split; assumption.
Qed.

(** X3. When [minScale <= maxScale], a two-finger move with a recorded
    previous span leaves the scale within [minScale, maxScale]. *)
Theorem pinch_scale_within_bounds (p : Props) (ev : NativeEvent) (g : GestureState)
    (s : State) (t0 t1 : Touch) (rest : list Touch) (last : Q) :
  isDoubleClick s = false ->
  pinchToZoom p = true ->
  changedTouches ev = t0 :: t1 :: rest ->
  zoomLastDistance s = Some last ->
  minScale p <= maxScale p ->
  minScale p <= scale (onPanResponderMove p ev g s) <= maxScale p.
Proof.
  intros Hd Hp Hev Hl Hle.
  destruct (move_two_touches p ev g s t0 t1 rest Hd Hev) as [l ->].
  unfold moveMulti. rewrite Hp, Hev.
  set (X := set_zoomCurrentDistance (touchSpan t0 t1) (set_longPressTimeout None s)).
  assert (HX : zoomLastDistance X = Some last) by exact Hl.
  destruct (pinchZoom_step p X last HX) as (Hz & _ & _).
  change (minScale p <= scale (pinchZoom p X) <= maxScale p).
  rewrite Hz.
  apply clamp_bounds. exact Hle.
Qed.

Lemma pinch_scale_within_bounds_witness :
  let s := stateAfter demoProps pinchStart in
  isDoubleClick s = false /\ pinchToZoom demoProps = true /\
  changedTouches pinchSpread = [touchAt 80 150; touchAt 220 150] /\
  zoomLastDistance s = Some (1000 # 10) /\ minScale demoProps <= maxScale demoProps /\
  minScale demoProps <= scale (onPanResponderMove demoProps pinchSpread (gesture 0 0) s)
    <= maxScale demoProps.
Proof.
  cbv zeta.
  assert (Hd : isDoubleClick (stateAfter demoProps pinchStart) = false)
    by (vm_compute; reflexivity).
  assert (Hp : pinchToZoom demoProps = true) by reflexivity.
  assert (Hev : changedTouches pinchSpread = [touchAt 80 150; touchAt 220 150])
    by reflexivity.
  assert (Hl : zoomLastDistance (stateAfter demoProps pinchStart) = Some (1000 # 10))
    by (vm_compute; reflexivity).
  assert (Hle : minScale demoProps <= maxScale demoProps) by (apply Qle_bool_iff; reflexivity).
  split; [exact Hd|]. split; [exact Hp|]. split; [exact Hev|]. split; [exact Hl|].
  split; [exact Hle|].
  exact (pinch_scale_within_bounds demoProps pinchSpread (gesture 0 0) _ _ _ [] _
           Hd Hp Hev Hl Hle).
Defined.

(** X4. The first two-finger move after a grant only records the span: it
    leaves scale, positionX and positionY as the grant left them, and (unless
    the grant was a double click) stores the span as the previous one. *)
Theorem first_pinch_move_keeps_transform (p : Props) (now : Q) (ev ev2 : NativeEvent)
    (g : GestureState) (s s1 : State) (t0 t1 : Touch) (rest : list Touch) :
  onPanResponderGrant p now ev s = Some s1 ->
  changedTouches ev2 = t0 :: t1 :: rest ->
  let s2 := onPanResponderMove p ev2 g s1 in
  scale s2 = scale s1 /\ positionX s2 = positionX s1 /\ positionY s2 = positionY s1 /\
  (isDoubleClick s1 = false -> pinchToZoom p = true ->
   zoomLastDistance s2 = Some (touchSpan t0 t1)).
Proof.
  intros Hg Hev. cbv zeta.
  destruct (grant_fields p now ev s s1 Hg) as (_ & Hz & _).
  destruct (isDoubleClick s1) eqn:Hd.
  - unfold onPanResponderMove. rewrite Hd.
    split; [reflexivity|]. split; [reflexivity|]. split; [reflexivity|].
    intro H. discriminate H.
  - destruct (move_two_touches p ev2 g s1 t0 t1 rest Hd Hev) as [l ->].
    unfold moveMulti. rewrite Hev.
    destruct (pinchToZoom p).
    + set (X := set_zoomCurrentDistance (touchSpan t0 t1) (set_longPressTimeout None s1)).
      assert (HX : zoomLastDistance X = None) by exact Hz.
      assert (EP : pinchZoom p X = X) by (unfold pinchZoom; rewrite HX; reflexivity).
      rewrite EP. repeat split.
    + split; [reflexivity|]. split; [reflexivity|]. split; [reflexivity|].
      intros _ H. discriminate H.
Qed.

Lemma first_pinch_move_keeps_transform_witness :
  onPanResponderGrant demoProps 1000 (twoFingers 100 150 200 150) initState =
    Some (stateAfter demoProps (firstn 1 pinchStart)) /\
  changedTouches pinchSpread = [touchAt 80 150; touchAt 220 150] /\
  scale (onPanResponderMove demoProps pinchSpread (gesture 0 0)
           (stateAfter demoProps (firstn 1 pinchStart))) = 1.
Proof.
  assert (Hg : onPanResponderGrant demoProps 1000 (twoFingers 100 150 200 150) initState =
                 Some (stateAfter demoProps (firstn 1 pinchStart))) by (vm_compute; reflexivity).
  assert (Hev : changedTouches pinchSpread = [touchAt 80 150; touchAt 220 150])
    by reflexivity.
  split; [exact Hg|]. split; [exact Hev|].
  rewrite (proj1 (first_pinch_move_keeps_transform demoProps 1000 _ _ (gesture 0 0) _ _
                    _ _ [] Hg Hev)).
  vm_compute. reflexivity.
Defined.

(** X5. Once a grant has recognised a double click, the moves and releases
    of that gesture change nothing but the long-press timer, which a release
    clears: the image does not move and no callback is called. *)
Theorem double_click_gesture_inert (p : Props) (es : list Event) (s s' : State) :
  isDoubleClick s = true ->
  forallb isMoveOrRelease es = true ->
  run p es s = Some s' ->
  s' = s \/ s' = set_longPressTimeout None s.
Proof.
  revert s. induction es as [|e es IH]; intros s Hd Hes Hr.
  - cbn in Hr. apply Some_eq in Hr. left. symmetry. exact Hr.
  - cbn [forallb] in Hes. apply andb_prop in Hes as [He Hes].
    destruct e as [now ev|ev g|ev g| | | | |c]; try discriminate He; cbn [run step] in Hr.
    + unfold onPanResponderMove in Hr. rewrite Hd in Hr. exact (IH s Hd Hes Hr).
    + rewrite (release_double_click p ev g s Hd) in Hr.
      destruct (IH (set_longPressTimeout None s) Hd Hes Hr) as [-> | ->]; right; reflexivity.
Qed.

Lemma double_click_gesture_inert_witness :
  let es := [EvMove (oneFinger 50 10) (gesture 40 0);
             EvRelease (oneFinger 50 10) (gesture 40 0)] in
  isDoubleClick (stateAfter demoProps doubleTap) = true /\
  forallb isMoveOrRelease es = true /\
  run demoProps es (stateAfter demoProps doubleTap) = Some (stateAfter demoProps (doubleTap ++ es)) /\
  (stateAfter demoProps (doubleTap ++ es) = stateAfter demoProps doubleTap \/
   stateAfter demoProps (doubleTap ++ es) =
     set_longPressTimeout None (stateAfter demoProps doubleTap)).
Proof.
  cbv zeta.
  assert (Hd : isDoubleClick (stateAfter demoProps doubleTap) = true) by (vm_compute; reflexivity).
  assert (He : forallb isMoveOrRelease [EvMove (oneFinger 50 10) (gesture 40 0);
             EvRelease (oneFinger 50 10) (gesture 40 0)] = true) by reflexivity.
  assert (Hr : run demoProps [EvMove (oneFinger 50 10) (gesture 40 0);
             EvRelease (oneFinger 50 10) (gesture 40 0)] (stateAfter demoProps doubleTap) =
           Some (stateAfter demoProps (doubleTap ++ [EvMove (oneFinger 50 10) (gesture 40 0);
             EvRelease (oneFinger 50 10) (gesture 40 0)]))) by (vm_compute; reflexivity).
  split; [exact Hd|]. split; [exact He|]. split; [exact Hr|].
  exact (double_click_gesture_inert demoProps _ _ _ Hd He Hr).
Defined.

(** A release that ends a long press only clears the long-press timer. *)
Lemma release_long_press (p : Props) (ev : NativeEvent) (g : GestureState) (s : State) :
  isLongPress s = true -> onPanResponderRelease p ev g s = set_longPressTimeout None s.
Proof.
  intro Hl. unfold onPanResponderRelease. cbn zeta.
  change (isLongPress (set_longPressTimeout None s)) with (isLongPress s).
  rewrite Hl. destruct (isDoubleClick _); reflexivity.
Qed.

(** X6. Unless it recognised a double click, a grant arms the long-press
    timer with the touch's location; when it fires, [isLongPress] is set and
    onLongPress gets that location, and the release that ends the gesture
    then only clears the timer: no click, no settling, no callback. *)
Theorem long_press_reports_grant_point (p : Props) (now : Q) (ev : NativeEvent) (s s1 : State) :
  onPanResponderGrant p now ev s = Some s1 ->
  isDoubleClick s1 = false ->
  let info := mkClickInfo (ne_locationX ev) (ne_locationY ev) (ne_pageX ev) (ne_pageY ev) in
  exists s2, step p EvLongPressTimer s1 = Some s2 /\
    isLongPress s2 = true /\
    emitted s2 = emitted s1 ++ (if has_onLongPress p then [EmitLongPress info] else []) /\
    (forall ev' g, onPanResponderRelease p ev' g s2 = set_longPressTimeout None s2).
Proof.
  intros Hg Hd. cbv zeta.
  destruct (grant_fields p now ev s s1 Hg) as (_ & _ & _ & HL).
  specialize (HL Hd).
  cbn [step]. rewrite HL.
  eexists. split; [reflexivity|].
  assert (Hlp : isLongPress (emit_if (has_onLongPress p)
                  (EmitLongPress (mkClickInfo (ne_locationX ev) (ne_locationY ev)
                                   (ne_pageX ev) (ne_pageY ev)))
                  (set_isLongPress true (set_longPressTimeout None s1))) = true)
    by (unfold emit_if; destruct (has_onLongPress p); reflexivity).
  split; [exact Hlp|]. split.
  - unfold emit_if. destruct (has_onLongPress p); [reflexivity|].
    rewrite app_nil_r. reflexivity.
  - intros ev' g. apply release_long_press. exact Hlp.
Qed.

Lemma long_press_reports_grant_point_witness :
  onPanResponderGrant demoProps 1000 (oneFinger 10 10) initState =
    Some (stateAfter demoProps [EvGrant 1000 (oneFinger 10 10)]) /\
  isDoubleClick (stateAfter demoProps [EvGrant 1000 (oneFinger 10 10)]) = false /\
  exists s2, step demoProps EvLongPressTimer
               (stateAfter demoProps [EvGrant 1000 (oneFinger 10 10)]) = Some s2 /\
             isLongPress s2 = true.
Proof.
  assert (Hg : onPanResponderGrant demoProps 1000 (oneFinger 10 10) initState =
                 Some (stateAfter demoProps [EvGrant 1000 (oneFinger 10 10)]))
    by (vm_compute; reflexivity).
  assert (Hd : isDoubleClick (stateAfter demoProps [EvGrant 1000 (oneFinger 10 10)]) = false)
    by (vm_compute; reflexivity).
  split; [exact Hg|]. split; [exact Hd|].
  destruct (long_press_reports_grant_point demoProps 1000 _ _ _ Hg Hd) as (s2 & H1 & H2 & _).
  exists s2. split; [exact H1 | exact H2].
Defined.

(** X7. A one-finger release that moved less than [clickDistance] (outside a
    double click or long press) only clears the long-press timer and arms the
    click timer with the release location; when that timer fires, onClick
    gets the location. Any grant before it fires cancels the click. *)
Theorem tap_release_defers_click (p : Props) (ev : NativeEvent) (g : GestureState)
    (s : State) (t : Touch) :
  isDoubleClick s = false -> isLongPress s = false ->
  changedTouches ev = [t] ->
  0 < clickDistance p ->
  gs_dx g * gs_dx g + gs_dy g * gs_dy g < clickDistance p * clickDistance p ->
  let info := mkClickInfo (ne_locationX ev) (ne_locationY ev) (ne_pageX ev) (ne_pageY ev) in
  let s1 := onPanResponderRelease p ev g s in
  s1 = set_singleClickTimeout (Some info) (set_longPressTimeout None s) /\
  step p EvSingleClickTimer s1 =
    Some (emit_if (has_onClick p) (EmitClick info)
            (set_singleClickTimeout None (set_longPressTimeout None s))) /\
  (forall now ev2 s2, onPanResponderGrant p now ev2 s1 = Some s2 ->
     step p EvSingleClickTimer s2 = Some s2).
Proof.
  intros Hd Hl Hev Hc Hm. cbv zeta.
  assert (E : onPanResponderRelease p ev g s =
              set_singleClickTimeout
                (Some (mkClickInfo (ne_locationX ev) (ne_locationY ev) (ne_pageX ev) (ne_pageY ev)))
                (set_longPressTimeout None s)).
  { unfold onPanResponderRelease. cbn zeta.
    change (isDoubleClick (set_longPressTimeout None s)) with (isDoubleClick s).
    change (isLongPress (set_longPressTimeout None s)) with (isLongPress s).
    rewrite Hd, Hl, Hev. unfold sqrtLt.
    rewrite (proj2 (Qltb_iff _ _) Hc), (proj2 (Qltb_iff _ _) Hm). reflexivity. }
  split; [exact E|]. split.
  - rewrite E. reflexivity.
  - intros now ev2 s2 Hg. destruct (grant_fields p now ev2 _ s2 Hg) as (Hs & _).
    cbn [step]. rewrite Hs. reflexivity.
Qed.

Lemma tap_release_defers_click_witness :
  let s := stateAfter demoProps [EvGrant 1000 (oneFinger 10 10)] in
  isDoubleClick s = false /\ isLongPress s = false /\
  changedTouches (oneFinger 10 12) = [touchAt 10 12] /\
  0 < clickDistance demoProps /\
  gs_dx (gesture 0 2) * gs_dx (gesture 0 2) + gs_dy (gesture 0 2) * gs_dy (gesture 0 2) <
    clickDistance demoProps * clickDistance demoProps /\
  singleClickTimeout (onPanResponderRelease demoProps (oneFinger 10 12) (gesture 0 2) s) =
    Some (mkClickInfo 10 12 10 12).
Proof.
  cbv zeta.
  assert (Hd : isDoubleClick (stateAfter demoProps [EvGrant 1000 (oneFinger 10 10)]) = false)
    by (vm_compute; reflexivity).
  assert (Hl : isLongPress (stateAfter demoProps [EvGrant 1000 (oneFinger 10 10)]) = false)
    by (vm_compute; reflexivity).
  assert (Hev : changedTouches (oneFinger 10 12) = [touchAt 10 12]) by reflexivity.
  assert (Hc : 0 < clickDistance demoProps) by reflexivity.
  assert (Hm : gs_dx (gesture 0 2) * gs_dx (gesture 0 2) + gs_dy (gesture 0 2) * gs_dy (gesture 0 2) <
               clickDistance demoProps * clickDistance demoProps) by reflexivity.
  do 5 (split; [assumption|]).
  rewrite (proj1 (tap_release_defers_click demoProps _ _ _ _ Hd Hl Hev Hc Hm)).
  reflexivity.
Defined.

(** X8. Two one-finger grants at times [t1] and [t2], with only
    non-grant events between them and the first not itself a double click:
    the second is a double click exactly when [t2 - t1 < doubleClickInterval];
    it then resets [lastClickTime] to 0, otherwise records [t2]. *)
Theorem double_tap_timing (p : Props) (t1 t2 : Q) (ev1 ev2 : NativeEvent) (x1 x2 : Touch)
    (es : list Event) (s s2 : State) :
  changedTouches ev1 = [x1] -> changedTouches ev2 = [x2] ->
  doubleClickInterval p <= t1 - lastClickTime s ->
  forallb (fun e => negb (isGrant e)) es = true ->
  run p (EvGrant t1 ev1 :: es ++ [EvGrant t2 ev2]) s = Some s2 ->
  isDoubleClick s2 = Qltb (t2 - t1) (doubleClickInterval p) /\
  lastClickTime s2 = (if Qltb (t2 - t1) (doubleClickInterval p) then 0 else t2).
Proof.
  intros H1 H2 Hfirst Hes Hr.
  cbn [run step] in Hr.
  destruct (onPanResponderGrant p t1 ev1 s) as [s1|] eqn:G1; [|discriminate Hr].
  destruct (grant_timing_one p t1 ev1 s s1 x1 H1 G1) as [_ L1].
  rewrite (proj2 (Qltb_false _ _) Hfirst) in L1.
  rewrite run_app in Hr.
  destruct (run p es s1) as [s1'|] eqn:R; [|discriminate Hr].
  pose proof (run_lct p es s1 s1' Hes R) as L2.
  cbn [run step] in Hr.
  destruct (onPanResponderGrant p t2 ev2 s1') as [s3|] eqn:G2; [|discriminate Hr].
  apply Some_eq in Hr. subst s3.
  destruct (grant_timing_one p t2 ev2 s1' s2 x2 H2 G2) as [A B].
  rewrite L2, L1 in A, B. split; assumption.
Qed.

Lemma double_tap_timing_witness :
  changedTouches (oneFinger 10 10) = [touchAt 10 10] /\
  doubleClickInterval demoProps <= 1000 - lastClickTime initState /\
  forallb (fun e => negb (isGrant e)) [EvRelease (oneFinger 10 10) (gesture 0 0)] = true /\
  run demoProps (EvGrant 1000 (oneFinger 10 10) :: [EvRelease (oneFinger 10 10) (gesture 0 0)]
                 ++ [EvGrant 1100 (oneFinger 10 10)]) initState =
    Some (stateAfter demoProps doubleTap) /\
  isDoubleClick (stateAfter demoProps doubleTap) = true.
Proof.
  assert (H1 : changedTouches (oneFinger 10 10) = [touchAt 10 10]) by reflexivity.
  assert (Hf : doubleClickInterval demoProps <= 1000 - lastClickTime initState)
    by (apply Qle_bool_iff; reflexivity).
  assert (He : forallb (fun e => negb (isGrant e))
                 [EvRelease (oneFinger 10 10) (gesture 0 0)] = true) by reflexivity.
  assert (Hr : run demoProps (EvGrant 1000 (oneFinger 10 10) ::
                 [EvRelease (oneFinger 10 10) (gesture 0 0)] ++ [EvGrant 1100 (oneFinger 10 10)])
                 initState = Some (stateAfter demoProps doubleTap)) by (vm_compute; reflexivity).
  split; [exact H1|]. split; [exact Hf|]. split; [exact He|]. split; [exact Hr|].
  rewrite (proj1 (double_tap_timing demoProps 1000 1100 _ _ _ _ _ _ _ H1 H1 Hf He Hr)).
  reflexivity.
Defined.

Lemma clampPos_bound (x m : Q) : 0 <= m -> Qabs (clampPos x m) <= m.
Proof.
  intro Hm. unfold clampPos. apply Qabs_Qle_condition.
  assert (Hneg : - m <= m).
  { apply Qle_trans with 0; [|exact Hm].
    rewrite <- (Qopp_involutive 0). apply Qopp_le_compat. exact Hm. }
  destruct (Qltb x (- m)) eqn:E1; [split; [apply Qle_refl | exact Hneg]|].
  destruct (Qltb m x) eqn:E2; [split; [exact Hneg | apply Qle_refl]|].
  apply Qltb_false in E1. apply Qltb_false in E2. split; assumption.
Qed.

Lemma half_overhang_nonneg (size box sc : Q) :
  0 < sc -> box < size * sc -> 0 <= (size * sc - box) / 2 / sc.
Proof.
  intros Hsc Hb.
  apply Qle_shift_div_l; [exact Hsc|]. rewrite Qmult_0_l.
  apply Qle_shift_div_l; [reflexivity|]. rewrite Qmult_0_l.
  apply Qlt_le_weak. apply Qlt_minus_iff in Hb. exact Hb.
Qed.

Lemma settleMinScale_fields (p : Props) (s : State) :
  scale (settleMinScale p s) = (if enableCenterFocus p && Qltb (scale s) 1 then 1 else scale s) /\
  positionX (settleMinScale p s) = positionX s /\ positionY (settleMinScale p s) = positionY s.
Proof. unfold settleMinScale. split_ifs; repeat split. Qed.

Lemma settleNarrowX_fields (p : Props) (s : State) :
  scale (settleNarrowX p s) = scale s /\ positionY (settleNarrowX p s) = positionY s /\
  positionX (settleNarrowX p s) =
    (if Qle_bool (imageWidth p * scale s) (cropWidth p) then 0 else positionX s).
Proof. unfold settleNarrowX. split_ifs; repeat split. Qed.

Lemma settleShortY_fields (p : Props) (s : State) :
  scale (settleShortY p s) = scale s /\ positionX (settleShortY p s) = positionX s /\
  positionY (settleShortY p s) =
    (if Qle_bool (imageHeight p * scale s) (cropHeight p) then 0 else positionY s).
Proof. unfold settleShortY. split_ifs; repeat split. Qed.

Lemma settleClampY_fields (p : Props) (s : State) :
  scale (settleClampY p s) = scale s /\ positionX (settleClampY p s) = positionX s /\
  positionY (settleClampY p s) =
    (if Qltb (cropHeight p) (imageHeight p * scale s)
     then clampPos (positionY s) ((imageHeight p * scale s - cropHeight p) / 2 / scale s)
     else positionY s).
Proof. unfold settleClampY, clampPos. cbn zeta. split_ifs; repeat split. Qed.

Lemma settleClampX_fields (p : Props) (s : State) :
  scale (settleClampX p s) = scale s /\ positionY (settleClampX p s) = positionY s /\
  positionX (settleClampX p s) =
    (if Qltb (cropWidth p) (imageWidth p * scale s)
     then clampPos (positionX s) ((imageWidth p * scale s - cropWidth p) / 2 / scale s)
     else positionX s).
Proof. unfold settleClampX, clampPos. cbn zeta. split_ifs; repeat split. Qed.

Lemma settleCenterFocus_fields (p : Props) (s : State) :
  scale (settleCenterFocus p s) = scale s /\
  positionX (settleCenterFocus p s) =
    (if enableCenterFocus p && Qeq_bool (scale s) 1 then 0 else positionX s) /\
  positionY (settleCenterFocus p s) =
    (if enableCenterFocus p && Qeq_bool (scale s) 1 then 0 else positionY s).
Proof. unfold settleCenterFocus. split_ifs; repeat split. Qed.

(** One axis of the settling: zero when the image fits, clamp when it does
    not, and possibly the centre-focus reset to 0. *)
Lemma settle_axis (size box sc x : Q) (b : bool) :
  0 < sc ->
  inBounds size box sc
    (if b then 0 else
     if Qltb box (size * sc)
     then clampPos (if Qle_bool (size * sc) box then 0 else x) ((size * sc - box) / 2 / sc)
     else if Qle_bool (size * sc) box then 0 else x).
Proof.
  intro Hsc. split.
  - intro Hfit.
    rewrite (proj2 (Qle_bool_iff _ _) Hfit), (proj2 (Qltb_false _ _) Hfit).
    destruct b; reflexivity.
  - intro Hover.
    pose proof (half_overhang_nonneg size box sc Hsc Hover) as Hm.
    rewrite (proj2 (Qltb_iff _ _) Hover).
    destruct b; [exact Hm|]. apply clampPos_bound. exact Hm.
Qed.

Lemma settle_bounds (p : Props) (s : State) :
  0 < scale s ->
  let s6 := settleCenterFocus p (settleClampX p (settleClampY p (settleShortY p
              (settleNarrowX p (settleMinScale p s))))) in
  scale s6 = (if enableCenterFocus p && Qltb (scale s) 1 then 1 else scale s) /\
  inBounds (imageWidth p) (cropWidth p) (scale s6) (positionX s6) /\
  inBounds (imageHeight p) (cropHeight p) (scale s6) (positionY s6).
Proof.
  intro Hsc. cbv zeta.
  set (s1 := settleMinScale p s). set (s2 := settleNarrowX p s1).
  set (s3 := settleShortY p s2). set (s4 := settleClampY p s3).
  set (s5 := settleClampX p s4).
  destruct (settleMinScale_fields p s) as (M1 & M2 & M3). fold s1 in M1, M2, M3.
  destruct (settleNarrowX_fields p s1) as (N1 & N2 & N3). fold s2 in N1, N2, N3.
  destruct (settleShortY_fields p s2) as (S1 & S2 & S3). fold s3 in S1, S2, S3.
  destruct (settleClampY_fields p s3) as (Y1 & Y2 & Y3). fold s4 in Y1, Y2, Y3.
  destruct (settleClampX_fields p s4) as (X1 & X2 & X3). fold s5 in X1, X2, X3.
  destruct (settleCenterFocus_fields p s5) as (C1 & C2 & C3).
  assert (Hsc1 : 0 < scale s1).
  { rewrite M1. destruct (_ && _); [reflexivity | exact Hsc]. }
  assert (E2 : scale s2 = scale s1) by exact N1.
  assert (E3 : scale s3 = scale s1) by congruence.
  assert (E4 : scale s4 = scale s1) by congruence.
  assert (E5 : scale s5 = scale s1) by congruence.
  rewrite C1, E5. split; [exact M1|].
  rewrite C2, C3, E5, X3, X2, Y3, Y2, S3, S2, N3, N2, E4, E3, E2.
  split; apply settle_axis; exact Hsc1.
Qed.

(** X9. When a release settles the image (the swipe-down dismiss does not
    fire) and the scale is positive, panResponderReleaseResolve leaves no
    black border: along each axis the offset is 0 if the image fits the box
    and at most the half-overhang otherwise, at the settled scale, which is
    raised to 1 when enableCenterFocus is on and the scale was below 1. *)
Theorem release_settles_in_bounds (p : Props) (s : State) :
  swipeDownFires p s = false ->
  0 < scale s ->
  let s' := panResponderReleaseResolve p s in
  scale s' = (if enableCenterFocus p && Qltb (scale s) 1 then 1 else scale s) /\
  inBounds (imageWidth p) (cropWidth p) (scale s') (positionX s') /\
  inBounds (imageHeight p) (cropHeight p) (scale s') (positionY s').
Proof.
  intros Hf Hsc. cbv zeta. unfold panResponderReleaseResolve. rewrite Hf. cbn zeta.
  match goal with
  | |- context [imageDidMove p ?t ?s0] => destruct (imageDidMove_frame p t s0) as [l ->]
  end.
  exact (settle_bounds p s Hsc).
Qed.

Lemma release_settles_in_bounds_witness :
  let s := centerOnM (mkCenterOn 400 (-400) 2 0) initState in
  let s' := panResponderReleaseResolve demoProps s in
  swipeDownFires demoProps s = false /\ 0 < scale s /\
  (scale s' = (if enableCenterFocus demoProps && Qltb (scale s) 1 then 1 else scale s) /\
   inBounds (imageWidth demoProps) (cropWidth demoProps) (scale s') (positionX s') /\
   inBounds (imageHeight demoProps) (cropHeight demoProps) (scale s') (positionY s')) /\
  positionX s' == 75 /\ positionY s' == -75.
Proof.
  cbv zeta.
  assert (Hf : swipeDownFires demoProps (centerOnM (mkCenterOn 400 (-400) 2 0) initState) = false)
    by (vm_compute; reflexivity).
  assert (Hsc : 0 < scale (centerOnM (mkCenterOn 400 (-400) 2 0) initState)) by reflexivity.
  split; [exact Hf|]. split; [exact Hsc|].
  split; [exact (release_settles_in_bounds demoProps _ Hf Hsc)|].
  split; vm_compute; reflexivity.
Defined.

Lemma panVertical_posX (p : Props) (dy : Q) (s : State) :
  positionX (panVertical p dy s) = positionX s.
Proof. unfold panVertical. split_ifs; reflexivity. Qed.

Lemma limitOverflow_fields (p : Props) (s : State) :
  positionX (limitOverflow p s) = positionX s /\ positionY (limitOverflow p s) = positionY s /\
  scale (limitOverflow p s) = scale s.
Proof. unfold limitOverflow. split_ifs; repeat split. Qed.

Lemma positionX_if (b : bool) (a c : State) :
  positionX (if b then a else c) = if b then positionX a else positionX c.
Proof. destruct b; reflexivity. Qed.

Lemma panHorizontalMove_posX (p : Props) (d : Q) (s : State) :
  0 < scale s -> cropWidth p < imageWidth p * scale s ->
  Qabs (positionX (panHorizontalMove p d s))
    <= (imageWidth p * scale s - cropWidth p) / 2 / scale s.
Proof.
  intros Hsc Hw. unfold panHorizontalMove.
  rewrite (proj2 (Qltb_iff _ _) Hw).
  pose proof (absorbOverflow_frame p d s) as (_ & E2 & _).
  destruct (absorbOverflow p d s) as [d1 s1]. cbn in E2.
  cbv beta iota zeta.
  cbn [positionX scale set_positionX set_horizontalWholeOuterCounter set_animatedPositionX].
  rewrite !positionX_if.
  cbn [positionX scale set_positionX set_horizontalWholeOuterCounter set_animatedPositionX].
  rewrite E2.
  apply (clampPos_bound (positionX s1 + d1 / scale s)).
  apply half_overhang_nonneg; assumption.
Qed.

Lemma panHorizontal_posX (p : Props) (dx dy : Q) (s : State) :
  0 < scale s -> cropWidth p < imageWidth p * scale s ->
  Qabs (positionX (panHorizontal p dx dy s))
    <= (imageWidth p * scale s - cropWidth p) / 2 / scale s.
Proof.
  intros Hsc Hw. unfold panHorizontal. cbn zeta.
  match goal with
  | |- context [reportOverflow p ?s0] => destruct (reportOverflow_frame p s0) as [l ->]
  end.
  cbn [positionX set_emitted]. rewrite (proj1 (limitOverflow_fields p _)).
  destruct (Qltb (Qabs dy) (Qabs dx)).
  - exact (panHorizontalMove_posX p dx (set_isHorizontalWrap true s) Hsc Hw).
  - exact (panHorizontalMove_posX p dx s Hsc Hw).
Qed.

(** When the image is not wider than the box, the horizontal part of a move
    only counts overflow. *)
Lemma panHorizontal_narrow (p : Props) (dx dy : Q) (s : State) :
  imageWidth p * scale s <= cropWidth p ->
  positionX (panHorizontal p dx dy s) = positionX s /\
  positionY (panHorizontal p dx dy s) = positionY s /\
  scale (panHorizontal p dx dy s) = scale s.
Proof.
  intro Hn. unfold panHorizontal. cbn zeta.
  match goal with
  | |- context [reportOverflow p ?s0] => destruct (reportOverflow_frame p s0) as [l ->]
  end.
  cbn [positionX positionY scale set_emitted].
  destruct (limitOverflow_fields p
    (panHorizontalMove p dx
      (if Qltb (Qabs dy) (Qabs dx) then set_isHorizontalWrap true s else s))) as (L1 & L2 & L3).
  rewrite L1, L2, L3. unfold panHorizontalMove.
  destruct (Qltb (Qabs dy) (Qabs dx));
    cbn [scale set_isHorizontalWrap]; rewrite (proj2 (Qltb_false _ _) Hn);
    repeat split.
Qed.

Lemma panVertical_short (p : Props) (dy : Q) (s : State) :
  imageHeight p * scale s <= cropHeight p -> enableSwipeDown p = false ->
  panVertical p dy s = s.
Proof.
  intros Hn Hs. unfold panVertical.
  rewrite (proj2 (Qltb_false _ _) Hn), Hs. reflexivity.
Qed.

Lemma move_single_prefix (p : Props) (ev : NativeEvent) (g : GestureState) (s : State) :
  isDoubleClick s = false -> (List.length (changedTouches ev) <= 1)%nat ->
  exists l, onPanResponderMove p ev g s = set_emitted (emitted (moveSingle p g s) ++ l)
                                                       (moveSingle p g s).
Proof.
  intros Hd Hl. unfold onPanResponderMove. rewrite Hd.
  rewrite (proj2 (Nat.leb_le _ _) Hl).
  apply imageDidMove_frame.
Qed.

(** X10. In a single-touch move of an image wider than the box, the
    horizontal pan keeps positionX within the half-overhang
    [(imageWidth * scale - cropWidth) / 2 / scale]; while a swipe-down is in
    progress (swipeDownOffset is not 0), or panToMove is off, positionX does
    not change at all. *)
Theorem horizontal_pan_in_bounds (p : Props) (ev : NativeEvent) (g : GestureState)
    (s : State) :
  isDoubleClick s = false -> (List.length (changedTouches ev) <= 1)%nat ->
  0 < scale s -> cropWidth p < imageWidth p * scale s ->
  let s' := onPanResponderMove p ev g s in
  (panToMove p = true -> swipeDownOffset s == 0 ->
   Qabs (positionX s') <= (imageWidth p * scale s - cropWidth p) / 2 / scale s) /\
  (panToMove p = false \/ ~ swipeDownOffset s == 0 -> positionX s' = positionX s).
Proof.
  intros Hd Hl Hsc Hw. cbv zeta.
  destruct (move_single_prefix p ev g s Hd Hl) as [l ->].
  cbn [positionX set_emitted].
  unfold moveSingle. cbn zeta.
  match goal with
  | |- context [if panToMove p then _ else ?s0] =>
      assert (E0 : swipeDownOffset s0 = swipeDownOffset s /\ scale s0 = scale s /\
                   positionX s0 = positionX s)
        by (destruct (_ || _); repeat split);
      destruct E0 as (E1 & E2 & E3)
  end.
  split.
  - intros Hp Hz. rewrite Hp, panVertical_posX, E1.
    rewrite (proj2 (Qeq_bool_iff _ _) Hz).
    rewrite <- E2. apply panHorizontal_posX; rewrite E2; assumption.
  - intros [Hp | Hz].
    + rewrite Hp. exact E3.
    + destruct (panToMove p); [|exact E3].
      rewrite panVertical_posX, E1.
      destruct (Qeq_bool (swipeDownOffset s) 0) eqn:Eq;
        [apply Qeq_bool_iff in Eq; contradiction | exact E3].
Qed.

Lemma horizontal_pan_in_bounds_witness :
  let s := centerOnM (mkCenterOn 70 0 2 0) initState in
  let s1 := onPanResponderMove demoProps (oneFinger 10 10) (gesture 0 0) s in
  let s2 := onPanResponderMove demoProps (oneFinger 40 10) (gesture 30 0) s1 in
  isDoubleClick s1 = false /\ (List.length (changedTouches (oneFinger 40 10)) <= 1)%nat /\
  0 < scale s1 /\ cropWidth demoProps < imageWidth demoProps * scale s1 /\
  Qabs (positionX s2) <= (imageWidth demoProps * scale s1 - cropWidth demoProps) / 2 / scale s1 /\
  positionX s2 == 75.
Proof.
  cbv zeta.
  set (s1 := onPanResponderMove demoProps (oneFinger 10 10) (gesture 0 0)
               (centerOnM (mkCenterOn 70 0 2 0) initState)).
  assert (Hd : isDoubleClick s1 = false) by (vm_compute; reflexivity).
  assert (Hl : (List.length (changedTouches (oneFinger 40 10)) <= 1)%nat) by (cbn; lia).
  assert (Hsc : 0 < scale s1) by (vm_compute; reflexivity).
  assert (Hw : cropWidth demoProps < imageWidth demoProps * scale s1) by (vm_compute; reflexivity).
  do 4 (split; [assumption|]).
  split.
  - apply (proj1 (horizontal_pan_in_bounds demoProps (oneFinger 40 10) (gesture 30 0) s1
                    Hd Hl Hsc Hw)); vm_compute; reflexivity.
  - vm_compute. reflexivity.
Defined.

(** X11. An image that fits the box at the current scale cannot be dragged
    with one finger when swipe-down is off: a single-touch move keeps
    positionX, positionY and the scale. *)
Theorem fitting_image_not_dragged (p : Props) (ev : NativeEvent) (g : GestureState)
    (s : State) :
  isDoubleClick s = false -> (List.length (changedTouches ev) <= 1)%nat ->
  imageWidth p * scale s <= cropWidth p -> imageHeight p * scale s <= cropHeight p ->
  enableSwipeDown p = false ->
  let s' := onPanResponderMove p ev g s in
  positionX s' = positionX s /\ positionY s' = positionY s /\ scale s' = scale s.
Proof.
  intros Hd Hl Hw Hh Hs. cbv zeta.
  destruct (move_single_prefix p ev g s Hd Hl) as [l ->].
  cbn [positionX positionY scale set_emitted].
  unfold moveSingle. cbn zeta.
  match goal with
  | |- context [if panToMove p then _ else ?s0] =>
      assert (E0 : positionY s0 = positionY s /\ scale s0 = scale s /\
                   positionX s0 = positionX s)
        by (destruct (_ || _); repeat split);
      destruct E0 as (E1 & E2 & E3); set (s1 := s0) in *
  end.
  destruct (panToMove p); [|repeat split; assumption].
  destruct (Qeq_bool (swipeDownOffset s1) 0).
  - destruct (panHorizontal_narrow p
      (moveDiff (gs_dx g) (lastPositionX s)) (moveDiff (gs_dy g) (lastPositionY s)) s1)
      as (H1 & H2 & H3); [rewrite E2; exact Hw|].
    rewrite panVertical_short; [repeat split; congruence| |exact Hs].
    rewrite H3, E2. exact Hh.
  - rewrite panVertical_short; [repeat split; assumption| |exact Hs].
    rewrite E2. exact Hh.
Qed.

Lemma fitting_image_not_dragged_witness :
  let p := noSwipeProps in
  let s := onPanResponderMove p (oneFinger 10 10) (gesture 0 0) initState in
  let s' := onPanResponderMove p (oneFinger 90 60) (gesture 80 50) s in
  isDoubleClick s = false /\ (List.length (changedTouches (oneFinger 90 60)) <= 1)%nat /\
  imageWidth p * scale s <= cropWidth p /\ imageHeight p * scale s <= cropHeight p /\
  enableSwipeDown p = false /\
  (positionX s' = positionX s /\ positionY s' = positionY s /\ scale s' = scale s).
Proof.
  cbv zeta.
  set (p := noSwipeProps).
  set (s := onPanResponderMove p (oneFinger 10 10) (gesture 0 0) initState).
  assert (Hd : isDoubleClick s = false) by (vm_compute; reflexivity).
  assert (Hl : (List.length (changedTouches (oneFinger 90 60)) <= 1)%nat) by (cbn; lia).
  assert (Hw : imageWidth p * scale s <= cropWidth p) by (vm_compute; discriminate).
  assert (Hh : imageHeight p * scale s <= cropHeight p) by (vm_compute; discriminate).
  assert (Hs : enableSwipeDown p = false) by reflexivity.
  do 5 (split; [assumption|]).
  exact (fitting_image_not_dragged p (oneFinger 90 60) (gesture 80 50) s Hd Hl Hw Hh Hs).
Defined.

(** X12. Mounting with a centerOn prop jumps the position and scale to its
    values and starts one parallel tween of scale, positionX and positionY,
    lasting [duration || 300]; a later update whose centerOn has the same x,
    y and scale starts nothing, whatever its duration. Mounting without
    centerOn changes nothing. *)
Theorem mount_centerOn_tween (c c' : ICenterOn) (s : State) :
  let s1 := componentDidMount (Some c) s in
  let d := if Qeq_bool (co_duration c) 0 then 300 else co_duration c in
  positionX s1 = co_x c /\ positionY s1 = co_y c /\ scale s1 = co_scale c /\
  animations s1 = animations s ++ [mkAnimation AnimScale (co_scale c) d;
                                   mkAnimation AnimPositionX (co_x c) d;
                                   mkAnimation AnimPositionY (co_y c) d] /\
  (co_x c' == co_x c -> co_y c' == co_y c -> co_scale c' == co_scale c ->
   componentDidUpdate (Some c) (Some c') s1 = s1) /\
  componentDidMount None s = s.
Proof.
  cbv zeta. split; [reflexivity|]. split; [reflexivity|]. split; [reflexivity|].
  split; [cbn; rewrite <- !app_assoc; reflexivity|].
  split; [|reflexivity].
  intros Hx Hy Hs. unfold componentDidUpdate, didCenterOnChange.
  rewrite (proj2 (Qeq_bool_iff _ _) (Qeq_sym _ _ Hx)),
          (proj2 (Qeq_bool_iff _ _) (Qeq_sym _ _ Hy)),
          (proj2 (Qeq_bool_iff _ _) (Qeq_sym _ _ Hs)).
  reflexivity.
Qed.

Lemma mount_centerOn_tween_witness :
  let c := mkCenterOn 20 (-10) 2 0 in
  let c' := mkCenterOn 20 (-10) (4 # 2) 500 in
  let s1 := componentDidMount (Some c) initState in
  co_x c' == co_x c /\ co_y c' == co_y c /\ co_scale c' == co_scale c /\
  componentDidUpdate (Some c) (Some c') s1 = s1 /\
  List.length (animations s1) = 3%nat.
Proof.
  cbv zeta.
  assert (Hx : co_x (mkCenterOn 20 (-10) (4 # 2) 500) == co_x (mkCenterOn 20 (-10) 2 0))
    by reflexivity.
  assert (Hy : co_y (mkCenterOn 20 (-10) (4 # 2) 500) == co_y (mkCenterOn 20 (-10) 2 0))
    by reflexivity.
  assert (Hs : co_scale (mkCenterOn 20 (-10) (4 # 2) 500) == co_scale (mkCenterOn 20 (-10) 2 0))
    by reflexivity.
  split; [exact Hx|]. split; [exact Hy|]. split; [exact Hs|].
  split.
  - destruct (mount_centerOn_tween (mkCenterOn 20 (-10) 2 0) (mkCenterOn 20 (-10) (4 # 2) 500)
                initState) as (_ & _ & _ & _ & H & _).
    exact (H Hx Hy Hs).
  - reflexivity.
Defined.

Lemma emit_if_ok (m : Q) (b : bool) (e : Emit) (s : State) :
  overflowReportOk m e -> Forall (overflowReportOk m) (emitted s) ->
  Forall (overflowReportOk m) (emitted (emit_if b e s)).
Proof.
  intros He Hs. unfold emit_if. destruct b; [|exact Hs].
  cbn [emitted set_emitted]. apply Forall_app. split; [exact Hs|]. constructor; [exact He|constructor].
Qed.

Lemma imageDidMove_ok (m : Q) (p : Props) (t : string) (s : State) :
  Forall (overflowReportOk m) (emitted s) ->
  Forall (overflowReportOk m) (emitted (imageDidMove p t s)).
Proof. apply emit_if_ok. exact I. Qed.

Lemma emitted_if (b : bool) (a c : State) :
  emitted (if b then a else c) = if b then emitted a else emitted c.
Proof. destruct b; reflexivity. Qed.

Ltac setters_cbn :=
  cbn [emitted set_lastPositionX set_positionX set_animatedPositionX set_lastPositionY
       set_positionY set_animatedPositionY set_scale set_animatedScale set_zoomLastDistance
       set_zoomCurrentDistance set_lastTouchStartTime set_horizontalWholeOuterCounter
       set_swipeDownOffset set_horizontalWholeCounter set_verticalWholeCounter set_centerDiffX
       set_centerDiffY set_singleClickTimeout set_longPressTimeout set_lastClickTime
       set_doubleClickX set_doubleClickY set_isDoubleClick set_isLongPress set_isHorizontalWrap
       set_animations set_emitted start_timing start_parallel3].

Lemma absorbOverflow_ok (p : Props) (d : Q) (s : State) :
  0 <= maxOverflow p ->
  Forall (overflowReportOk (maxOverflow p)) (emitted s) ->
  Forall (overflowReportOk (maxOverflow p)) (emitted (snd (absorbOverflow p d s))).
Proof.
  intros Hm Hs. unfold absorbOverflow, horizontalOuterRangeOffset. cbn zeta.
  split_ifs; cbn [snd]; setters_cbn; try exact Hs;
    apply emit_if_ok; [exact Hm | exact Hs | exact Hm | exact Hs].
Qed.

Lemma panHorizontalMove_ok (p : Props) (d : Q) (s : State) :
  0 <= maxOverflow p ->
  Forall (overflowReportOk (maxOverflow p)) (emitted s) ->
  Forall (overflowReportOk (maxOverflow p)) (emitted (panHorizontalMove p d s)).
Proof.
  intros Hm Hs. unfold panHorizontalMove.
  destruct (Qltb _ _); [|exact Hs].
  pose proof (absorbOverflow_ok p d s Hm Hs) as A.
  destruct (absorbOverflow p d s) as [d1 s1]. cbn [snd] in A.
  cbv beta iota zeta. setters_cbn. rewrite !emitted_if. setters_cbn.
  split_ifs; exact A.
Qed.

Lemma limitOverflow_emitted (p : Props) (s : State) :
  emitted (limitOverflow p s) = emitted s.
Proof. unfold limitOverflow. split_ifs; reflexivity. Qed.

Lemma panHorizontal_ok (p : Props) (dx dy : Q) (s : State) :
  0 <= maxOverflow p ->
  Forall (overflowReportOk (maxOverflow p)) (emitted s) ->
  Forall (overflowReportOk (maxOverflow p)) (emitted (panHorizontal p dx dy s)).
Proof.
  intros Hm Hs. unfold panHorizontal, reportOverflow, horizontalOuterRangeOffset. cbn zeta.
  assert (A : Forall (overflowReportOk (maxOverflow p))
      (emitted (limitOverflow p (panHorizontalMove p dx
         (if Qltb (Qabs dy) (Qabs dx) then set_isHorizontalWrap true s else s))))).
  { rewrite limitOverflow_emitted. apply panHorizontalMove_ok; [exact Hm|].
    destruct (Qltb _ _); exact Hs. }
  destruct (negb _); [|exact A].
  apply emit_if_ok; [|exact A].
  apply limitOverflow_bound. exact Hm.
Qed.

Lemma panVertical_emitted (p : Props) (dy : Q) (s : State) :
  emitted (panVertical p dy s) = emitted s.
Proof. unfold panVertical. split_ifs; reflexivity. Qed.

Lemma moveMulti_emitted (p : Props) (ev : NativeEvent) (s : State) :
  emitted (moveMulti p ev s) = emitted s.
Proof.
  unfold moveMulti, pinchZoom.
  destruct (pinchToZoom p); [|reflexivity].
  destruct (changedTouches ev) as [|t0 [|t1 rest]]; cbn; try reflexivity.
  destruct (zoomLastDistance s); reflexivity.
Qed.

Lemma move_ok (p : Props) (ev : NativeEvent) (g : GestureState) (s : State) :
  0 <= maxOverflow p ->
  Forall (overflowReportOk (maxOverflow p)) (emitted s) ->
  Forall (overflowReportOk (maxOverflow p)) (emitted (onPanResponderMove p ev g s)).
Proof.
  intros Hm Hs. unfold onPanResponderMove.
  destruct (isDoubleClick s); [exact Hs|].
  apply imageDidMove_ok.
  destruct (Nat.leb _ _); [|rewrite moveMulti_emitted; exact Hs].
  unfold moveSingle. cbn zeta.
  match goal with
  | |- context [if panToMove p then _ else ?s0] =>
      assert (E0 : emitted s0 = emitted s) by (destruct (_ || _); reflexivity);
      set (s1 := s0) in *
  end.
  destruct (panToMove p); [|rewrite E0; exact Hs].
  rewrite panVertical_emitted.
  destruct (Qeq_bool _ 0); [|rewrite E0; exact Hs].
  apply panHorizontal_ok; [exact Hm|]. rewrite E0. exact Hs.
Qed.

Lemma doubleClickZoom_emitted (p : Props) (s : State) :
  emitted (doubleClickZoom p s) = emitted s.
Proof. unfold doubleClickZoom. destruct (_ || _); reflexivity. Qed.

Lemma grant_ok (m : Q) (p : Props) (now : Q) (ev : NativeEvent) (s s' : State) :
  onPanResponderGrant p now ev s = Some s' ->
  Forall (overflowReportOk m) (emitted s) ->
  Forall (overflowReportOk m) (emitted s').
Proof.
  intros H Hs. unfold onPanResponderGrant in H.
  set (s0 := armLongPress ev (grantCenterDiff p ev (grantReset now s))) in H.
  assert (E0 : emitted s0 = emitted s).
  { unfold s0. destruct (grantCenterDiff_frame p ev (grantReset now s)) as [-> | (a & b & ->)];
      reflexivity. }
  clearbody s0.
  destruct (Nat.leb _ _); [destruct (Qltb _ _)|];
    [| apply Some_eq in H; subst s'; exact (eq_ind_r _ Hs E0)
     | apply Some_eq in H; subst s'; rewrite <- E0 in Hs; exact Hs].
  unfold grantDoubleClick in H.
  destruct (changedTouches ev) as [|t0 rest]; [discriminate H|].
  destruct (enableDoubleClickZoom p); apply Some_eq in H; subst s'.
  - setters_cbn. apply imageDidMove_ok. rewrite doubleClickZoom_emitted.
    setters_cbn. apply emit_if_ok; [exact I|]. setters_cbn. rewrite E0. exact Hs.
  - setters_cbn. apply emit_if_ok; [exact I|]. setters_cbn. rewrite E0. exact Hs.
Qed.

Lemma resolve_ok (m : Q) (p : Props) (s : State) :
  Forall (overflowReportOk m) (emitted s) ->
  Forall (overflowReportOk m) (emitted (panResponderReleaseResolve p s)).
Proof.
  intro Hs. unfold panResponderReleaseResolve.
  destruct (swipeDownFires p s); [apply emit_if_ok; [exact I | exact Hs]|].
  cbn zeta. apply imageDidMove_ok. setters_cbn. rewrite settle_emitted. exact Hs.
Qed.

Lemma release_ok (m : Q) (p : Props) (ev : NativeEvent) (g : GestureState) (s : State) :
  Forall (overflowReportOk m) (emitted s) ->
  Forall (overflowReportOk m) (emitted (onPanResponderRelease p ev g s)).
Proof.
  intro Hs. unfold onPanResponderRelease. cbn zeta.
  destruct (isDoubleClick _); [exact Hs|].
  destruct (isLongPress _); [exact Hs|].
  destruct (_ && _); [exact Hs|].
  apply resolve_ok. apply emit_if_ok; [exact I | exact Hs].
Qed.

Lemma step_ok (p : Props) (e : Event) (s s' : State) :
  0 <= maxOverflow p -> step p e s = Some s' ->
  Forall (overflowReportOk (maxOverflow p)) (emitted s) ->
  Forall (overflowReportOk (maxOverflow p)) (emitted s').
Proof.
  intros Hm H Hs. destruct e; cbn in H.
  - exact (grant_ok _ p now ev s s' H Hs).
  - apply Some_eq in H. subst s'. apply move_ok; assumption.
  - apply Some_eq in H. subst s'. apply release_ok. exact Hs.
  - destruct (longPressTimeout s); apply Some_eq in H; subst s'; [|exact Hs].
    apply emit_if_ok; [exact I | exact Hs].
  - destruct (singleClickTimeout s); apply Some_eq in H; subst s'; [|exact Hs].
    apply emit_if_ok; [exact I | exact Hs].
  - apply Some_eq in H. subst s'. exact Hs.
  - apply Some_eq in H. subst s'. exact Hs.
  - apply Some_eq in H. subst s'. exact Hs.
Qed.

Lemma run_ok (p : Props) (es : list Event) (s s' : State) :
  0 <= maxOverflow p -> run p es s = Some s' ->
  Forall (overflowReportOk (maxOverflow p)) (emitted s) ->
  Forall (overflowReportOk (maxOverflow p)) (emitted s').
Proof.
  intro Hm. revert s. induction es as [|e es IH]; intros s H Hs; cbn in H.
  - apply Some_eq in H. subst s'. exact Hs.
  - destruct (step p e s) as [s1|] eqn:E; [|discriminate H].
    exact (IH s1 H (step_ok p e s s1 Hm E Hs)).
Qed.

(** X13. With a non-negative maxOverflow, every value the component passes to
    horizontalOuterRangeOffset, in any run of events, lies within
    [-maxOverflow, maxOverflow] (provided the calls made before the run
    did). *)
Theorem overflow_reports_bounded (p : Props) (es : list Event) (s s' : State) :
  0 <= maxOverflow p -> run p es s = Some s' ->
  (forall v, In (EmitHorizontalOuterRangeOffset v) (emitted s) -> Qabs v <= maxOverflow p) ->
  forall v, In (EmitHorizontalOuterRangeOffset v) (emitted s') -> Qabs v <= maxOverflow p.
Proof.
  intros Hm H Hs v Hv.
  assert (A : Forall (overflowReportOk (maxOverflow p)) (emitted s)).
  { apply Forall_forall. intros e He. destruct e; try exact I. exact (Hs v0 He). }
  pose proof (run_ok p es s s' Hm H A) as B.
  rewrite Forall_forall in B. exact (B _ Hv).
Qed.

Lemma overflow_reports_bounded_witness :
  0 <= maxOverflow demoProps /\
  run demoProps sideDrag initState = Some (stateAfter demoProps sideDrag) /\
  (forall v, In (EmitHorizontalOuterRangeOffset v) (emitted initState) ->
             Qabs v <= maxOverflow demoProps) /\
  (forall v, In (EmitHorizontalOuterRangeOffset v) (emitted (stateAfter demoProps sideDrag)) ->
             Qabs v <= maxOverflow demoProps) /\
  In (EmitHorizontalOuterRangeOffset 100) (emitted (stateAfter demoProps sideDrag)).
Proof.
  assert (Hm : 0 <= maxOverflow demoProps) by (apply Qle_bool_iff; reflexivity).
  assert (Hr : run demoProps sideDrag initState = Some (stateAfter demoProps sideDrag))
    by (vm_compute; reflexivity).
  assert (H0 : forall v, In (EmitHorizontalOuterRangeOffset v) (emitted initState) ->
                         Qabs v <= maxOverflow demoProps) by (intros v []).
  split; [exact Hm|]. split; [exact Hr|]. split; [exact H0|].
  split; [exact (overflow_reports_bounded demoProps sideDrag _ _ Hm Hr H0)|].
  vm_compute. tauto.
Defined.

Lemma pinch_move_fields (p : Props) (ev : NativeEvent) (g : GestureState) (s : State) :
  (2 <= List.length (changedTouches ev))%nat ->
  let s' := onPanResponderMove p ev g s in
  centerDiffX s' = centerDiffX s /\ centerDiffY s' = centerDiffY s /\
  (centerDiffX s == 0 -> centerDiffY s == 0 ->
   positionX s' == positionX s /\ positionY s' == positionY s).
Proof.
  intro Hl. cbv zeta.
  destruct (isDoubleClick s) eqn:Hd.
  - unfold onPanResponderMove. rewrite Hd.
    split; [reflexivity|]. split; [reflexivity|]. intros _ _. split; reflexivity.
  - destruct (changedTouches ev) as [|t0 [|t1 rest]] eqn:Hev; cbn in Hl; [lia | lia|].
    destruct (move_two_touches p ev g s t0 t1 rest Hd Hev) as [l ->].
    cbn [centerDiffX centerDiffY positionX positionY set_emitted].
    unfold moveMulti. rewrite Hev.
    destruct (pinchToZoom p);
      [|split; [reflexivity|]; split; [reflexivity|]; intros _ _; split; reflexivity].
    set (X := set_zoomCurrentDistance (touchSpan t0 t1) (set_longPressTimeout None s)).
    change (centerDiffX (pinchZoom p X) = centerDiffX s /\
            centerDiffY (pinchZoom p X) = centerDiffY s /\
            (centerDiffX s == 0 -> centerDiffY s == 0 ->
             positionX (pinchZoom p X) == positionX s /\
             positionY (pinchZoom p X) == positionY s)).
    destruct (zoomLastDistance X) as [last|] eqn:HX.
    + destruct (pinchZoom_step p X last HX) as (_ & Ex & Ey).
      assert (Ec : centerDiffX (pinchZoom p X) = centerDiffX s /\
                   centerDiffY (pinchZoom p X) = centerDiffY s)
        by (unfold pinchZoom; rewrite HX; split; reflexivity).
      split; [exact (proj1 Ec)|]. split; [exact (proj2 Ec)|].
      intros Hx Hy. rewrite Ex, Ey.
      change (positionX X) with (positionX s). change (positionY X) with (positionY s).
      change (centerDiffX X) with (centerDiffX s). change (centerDiffY X) with (centerDiffY s).
      split; [rewrite Hx | rewrite Hy]; unfold Qdiv; ring.
    + unfold pinchZoom. rewrite HX.
      split; [reflexivity|]. split; [reflexivity|]. intros _ _. split; reflexivity.
Qed.

Lemma pinch_run (p : Props) (es : list Event) (s s' : State) :
  forallb isPinchMove es = true -> run p es s = Some s' ->
  centerDiffX s == 0 -> centerDiffY s == 0 ->
  positionX s' == positionX s /\ positionY s' == positionY s.
Proof.
  revert s. induction es as [|e es IH]; intros s Hes Hr Hx Hy; cbn in Hr.
  - apply Some_eq in Hr. subst s'. split; reflexivity.
  - cbn in Hes. apply andb_prop in Hes as [He Hes].
    destruct e; try discriminate He. cbn in Hr.
    apply Nat.leb_le in He.
    destruct (pinch_move_fields p ev g s He) as (Cx & Cy & Hp).
    destruct (Hp Hx Hy) as [Px Py].
    destruct (IH _ Hes Hr) as [Qx Qy]; [rewrite Cx; exact Hx | rewrite Cy; exact Hy|].
    split; [rewrite Qx; exact Px | rewrite Qy; exact Py].
Qed.

Lemma grant_two_touches (p : Props) (now : Q) (ev : NativeEvent) (s s1 : State)
    (t0 t1 : Touch) (rest : list Touch) :
  changedTouches ev = t0 :: t1 :: rest ->
  onPanResponderGrant p now ev s = Some s1 ->
  positionX s1 = positionX s /\ positionY s1 = positionY s /\
  centerDiffX s1 = (t_pageX t0 + t_pageX t1) / 2 - cropWidth p / 2 /\
  centerDiffY s1 = (t_pageY t0 + t_pageY t1) / 2 - cropHeight p / 2.
Proof.
  intros Hev H. unfold onPanResponderGrant, grantCenterDiff in H. rewrite Hev in H.
  cbn zeta in H. change (Nat.leb (List.length (t0 :: t1 :: rest)) 1) with false in H.
  apply Some_eq in H. subst s1. repeat split.
Qed.

(** X14. The zoom centre of a pinch is fixed when the gesture starts: if the
    midpoint of the two touches of the grant is the centre of the box, the
    following pinch moves only zoom, wherever the fingers go; positionX and
    positionY end where they were before the gesture. *)
Theorem centered_pinch_keeps_position (p : Props) (now : Q) (ev : NativeEvent)
    (t0 t1 : Touch) (rest : list Touch) (es : list Event) (s s' : State) :
  changedTouches ev = t0 :: t1 :: rest ->
  (t_pageX t0 + t_pageX t1) / 2 == cropWidth p / 2 ->
  (t_pageY t0 + t_pageY t1) / 2 == cropHeight p / 2 ->
  forallb isPinchMove es = true ->
  run p (EvGrant now ev :: es) s = Some s' ->
  positionX s' == positionX s /\ positionY s' == positionY s.
Proof.
  intros Hev Hcx Hcy Hes Hr. cbn in Hr.
  destruct (onPanResponderGrant p now ev s) as [s1|] eqn:Hg; [|discriminate Hr].
  destruct (grant_two_touches p now ev s s1 t0 t1 rest Hev Hg) as (Px & Py & Cx & Cy).
  destruct (pinch_run p es s1 s' Hes Hr) as [Qx Qy].
  - rewrite Cx, Hcx. ring.
  - rewrite Cy, Hcy. ring.
  - rewrite Qx, Qy, Px, Py. split; reflexivity.
Qed.

Lemma centered_pinch_keeps_position_witness :
  let ev := twoFingers 100 150 200 150 in
  let es := [EvMove ev (gesture 0 0); EvMove pinchSpread (gesture 0 0);
             EvMove (twoFingers 30 40 290 260) (gesture 0 0)] in
  let s0 := centerOnM (mkCenterOn 40 (-20) 1 0) initState in
  let s' := match run demoProps (EvGrant 1000 ev :: es) s0 with
            | Some s => s | None => s0 end in
  changedTouches ev = [touchAt 100 150; touchAt 200 150] /\
  (t_pageX (touchAt 100 150) + t_pageX (touchAt 200 150)) / 2 == cropWidth demoProps / 2 /\
  (t_pageY (touchAt 100 150) + t_pageY (touchAt 200 150)) / 2 == cropHeight demoProps / 2 /\
  forallb isPinchMove es = true /\
  run demoProps (EvGrant 1000 ev :: es) s0 = Some s' /\
  ~ scale s' == 1 /\
  (positionX s' == positionX s0 /\ positionY s' == positionY s0).
Proof.
  cbv zeta.
  set (ev := twoFingers 100 150 200 150).
  set (es := [EvMove ev (gesture 0 0); EvMove pinchSpread (gesture 0 0);
              EvMove (twoFingers 30 40 290 260) (gesture 0 0)]).
  set (s0 := centerOnM (mkCenterOn 40 (-20) 1 0) initState).
  assert (Hev : changedTouches ev = [touchAt 100 150; touchAt 200 150]) by reflexivity.
  assert (Hcx : (t_pageX (touchAt 100 150) + t_pageX (touchAt 200 150)) / 2
                == cropWidth demoProps / 2) by reflexivity.
  assert (Hcy : (t_pageY (touchAt 100 150) + t_pageY (touchAt 200 150)) / 2
                == cropHeight demoProps / 2) by reflexivity.
  assert (Hes : forallb isPinchMove es = true) by reflexivity.
  assert (Hr : run demoProps (EvGrant 1000 ev :: es) s0 =
               Some (match run demoProps (EvGrant 1000 ev :: es) s0 with
                     | Some s => s | None => s0 end)) by (vm_compute; reflexivity).
  split; [exact Hev|]. split; [exact Hcx|]. split; [exact Hcy|]. split; [exact Hes|].
  split; [exact Hr|].
  split; [vm_compute; discriminate|].
  exact (centered_pinch_keeps_position demoProps 1000 ev _ _ [] es s0 _ Hev Hcx Hcy Hes Hr).
Defined.

Lemma absorbOverflow_track (p : Props) (d : Q) (s : State) :
  let s' := snd (absorbOverflow p d s) in
  lastPositionX s' = lastPositionX s /\ lastPositionY s' = lastPositionY s /\
  horizontalWholeCounter s' = horizontalWholeCounter s /\
  verticalWholeCounter s' = verticalWholeCounter s /\ isDoubleClick s' = isDoubleClick s.
Proof.
  unfold absorbOverflow, horizontalOuterRangeOffset.
  split_ifs; cbn; emit_frame; repeat split.
Qed.

Lemma panHorizontal_track (p : Props) (dx dy : Q) (s : State) :
  let s' := panHorizontal p dx dy s in
  lastPositionX s' = lastPositionX s /\ lastPositionY s' = lastPositionY s /\
  horizontalWholeCounter s' = horizontalWholeCounter s /\
  verticalWholeCounter s' = verticalWholeCounter s /\ isDoubleClick s' = isDoubleClick s.
Proof.
  unfold panHorizontal, reportOverflow, limitOverflow, horizontalOuterRangeOffset,
    panHorizontalMove.
  cbn zeta.
  destruct (Qltb (Qabs dy) (Qabs dx));
  match goal with
  | |- context [absorbOverflow p dx ?s0] =>
      pose proof (absorbOverflow_track p dx s0) as (E1 & E2 & E3 & E4 & E5);
      destruct (absorbOverflow p dx s0) as [d1 s1]; cbn in E1, E2, E3, E4, E5
  end;
  split_ifs; cbn; emit_frame; cbn; repeat split; congruence.
Qed.

Lemma panVertical_track (p : Props) (dy : Q) (s : State) :
  let s' := panVertical p dy s in
  lastPositionX s' = lastPositionX s /\ lastPositionY s' = lastPositionY s /\
  horizontalWholeCounter s' = horizontalWholeCounter s /\
  verticalWholeCounter s' = verticalWholeCounter s /\ isDoubleClick s' = isDoubleClick s.
Proof. unfold panVertical. split_ifs; repeat split. Qed.

Lemma moveSingle_track (p : Props) (g : GestureState) (s : State) :
  let s' := moveSingle p g s in
  lastPositionX s' = Some (gs_dx g) /\ lastPositionY s' = Some (gs_dy g) /\
  horizontalWholeCounter s' = horizontalWholeCounter s + moveDiff (gs_dx g) (lastPositionX s) /\
  verticalWholeCounter s' = verticalWholeCounter s + moveDiff (gs_dy g) (lastPositionY s) /\
  isDoubleClick s' = isDoubleClick s.
Proof.
  cbv zeta. unfold moveSingle. cbn zeta.
  match goal with
  | |- context [if panToMove p then _ else ?s0] =>
      assert (E0 : lastPositionX s0 = Some (gs_dx g) /\ lastPositionY s0 = Some (gs_dy g) /\
        horizontalWholeCounter s0 = horizontalWholeCounter s + moveDiff (gs_dx g) (lastPositionX s) /\
        verticalWholeCounter s0 = verticalWholeCounter s + moveDiff (gs_dy g) (lastPositionY s) /\
        isDoubleClick s0 = isDoubleClick s) by (destruct (_ || _); repeat split);
      set (s1 := s0) in *
  end.
  destruct (panToMove p); [|exact E0].
  destruct (panVertical_track p (moveDiff (gs_dy g) (lastPositionY s))
    (if Qeq_bool (swipeDownOffset s1) 0
     then panHorizontal p (moveDiff (gs_dx g) (lastPositionX s))
            (moveDiff (gs_dy g) (lastPositionY s)) s1
     else s1)) as (V1 & V2 & V3 & V4 & V5).
  rewrite V1, V2, V3, V4, V5.
  destruct (Qeq_bool _ 0); [|exact E0].
  destruct (panHorizontal_track p (moveDiff (gs_dx g) (lastPositionX s))
    (moveDiff (gs_dy g) (lastPositionY s)) s1) as (H1 & H2 & H3 & H4 & H5).
  rewrite H1, H2, H3, H4, H5. exact E0.
Qed.

Lemma last_cons_default {A : Type} (x d : A) (l : list A) :
  last (x :: l) d = last l x.
Proof.
  revert x d. induction l as [|y l IH]; intros x d; [reflexivity|].
  change (last (y :: l) d = last (y :: l) x). rewrite (IH y d), (IH y x). reflexivity.
Qed.

Lemma drag_run (p : Props) (moves : list (NativeEvent * GestureState)) (x0 y0 a b : Q)
    (s s' : State) :
  isDoubleClick s = false -> lastPositionX s = Some a -> lastPositionY s = Some b ->
  horizontalWholeCounter s == a - x0 -> verticalWholeCounter s == b - y0 ->
  forallb (fun m => isSingleTouch (fst m)) moves = true ->
  run p (map moveEvent moves) s = Some s' ->
  horizontalWholeCounter s' == last (map (fun m => gs_dx (snd m)) moves) a - x0 /\
  verticalWholeCounter s' == last (map (fun m => gs_dy (snd m)) moves) b - y0.
Proof.
  revert s a b. induction moves as [|[ev g] moves IH]; intros s a b Hd Ha Hb Hx Hy Hs Hr.
  - cbn in Hr. apply Some_eq in Hr. subst s'. split; assumption.
  - cbn in Hs, Hr. apply andb_prop in Hs as [He Hs].
    destruct (move_single_prefix p ev g s Hd (proj1 (Nat.leb_le _ _) He)) as [l E].
    rewrite E in Hr.
    destruct (moveSingle_track p g s) as (T1 & T2 & T3 & T4 & T5).
    cbn [map]. rewrite !last_cons_default.
    refine (IH _ (gs_dx g) (gs_dy g) _ _ _ _ _ Hs Hr);
      cbn [isDoubleClick lastPositionX lastPositionY horizontalWholeCounter
           verticalWholeCounter set_emitted].
    + rewrite T5. exact Hd.
    + exact T1.
    + exact T2.
    + rewrite T3, Ha, Hx. unfold moveDiff. cbv beta iota zeta. ring.
    + rewrite T4, Hb, Hy. unfold moveDiff. cbv beta iota zeta. ring.
Qed.

Lemma last_map {A B : Type} (f : A -> B) (l : list A) (d : A) :
  last (map f l) (f d) = f (last l d).
Proof.
  revert d. induction l as [|x l IH]; intro d; [reflexivity|].
  cbn [map]. rewrite !last_cons_default. apply IH.
Qed.

Lemma grant_single_tap_fields (p : Props) (now : Q) (ev : NativeEvent) (s s1 : State) :
  doubleClickInterval p <= now - lastClickTime s ->
  onPanResponderGrant p now ev s = Some s1 ->
  isDoubleClick s1 = false /\ lastPositionX s1 = None /\ lastPositionY s1 = None /\
  horizontalWholeCounter s1 = 0 /\ verticalWholeCounter s1 = 0.
Proof.
  intros Hi H. unfold onPanResponderGrant in H.
  set (s0 := armLongPress ev (grantCenterDiff p ev (grantReset now s))) in H.
  assert (E0 : lastClickTime s0 = lastClickTime s /\ isDoubleClick s0 = false /\
               lastPositionX s0 = None /\ lastPositionY s0 = None /\
               horizontalWholeCounter s0 = 0 /\ verticalWholeCounter s0 = 0).
  { unfold s0. destruct (grantCenterDiff_frame p ev (grantReset now s)) as [-> | (a & b & ->)];
      repeat split. }
  clearbody s0. destruct E0 as (E1 & E2 & E3 & E4 & E5 & E6).
  destruct (Nat.leb _ _).
  - rewrite E1, (proj2 (Qltb_false _ _) Hi) in H.
    apply Some_eq in H. subst s1. repeat split; assumption.
  - apply Some_eq in H. subst s1. repeat split; assumption.
Qed.

(** X15. In a one-finger drag that does not start as a double click,
    horizontalWholeCounter and verticalWholeCounter, the totals the long-press
    cancellation tests against 5, equal the gesture displacement (dx, dy) of
    the latest move minus that of the first move: the first move of a
    gesture contributes nothing, and each later move adds its difference
    from the previous one. *)
Theorem drag_counters_track (p : Props) (now : Q) (ev ev1 : NativeEvent) (g1 : GestureState)
    (moves : list (NativeEvent * GestureState)) (s s' : State) :
  doubleClickInterval p <= now - lastClickTime s ->
  forallb (fun m => isSingleTouch (fst m)) ((ev1, g1) :: moves) = true ->
  run p (EvGrant now ev :: map moveEvent ((ev1, g1) :: moves)) s = Some s' ->
  let gk := last (map snd moves) g1 in
  horizontalWholeCounter s' == gs_dx gk - gs_dx g1 /\
  verticalWholeCounter s' == gs_dy gk - gs_dy g1.
Proof.
  intros Hi Hs Hr. cbv zeta. cbn in Hr.
  destruct (onPanResponderGrant p now ev s) as [s1|] eqn:Hg; [|discriminate Hr].
  destruct (grant_single_tap_fields p now ev s s1 Hi Hg) as (D1 & L1 & L2 & C1 & C2).
  cbn in Hs. apply andb_prop in Hs as [He Hs].
  destruct (move_single_prefix p ev1 g1 s1 D1 (proj1 (Nat.leb_le _ _) He)) as [l E].
  rewrite E in Hr.
  destruct (moveSingle_track p g1 s1) as (T1 & T2 & T3 & T4 & T5).
  assert (Hd2 : isDoubleClick (set_emitted (emitted (moveSingle p g1 s1) ++ l)
                                          (moveSingle p g1 s1)) = false)
    by (cbn [isDoubleClick set_emitted]; rewrite T5; exact D1).
  assert (Hx2 : horizontalWholeCounter (set_emitted (emitted (moveSingle p g1 s1) ++ l)
                                          (moveSingle p g1 s1)) == gs_dx g1 - gs_dx g1).
  { cbn [horizontalWholeCounter set_emitted]. rewrite T3, C1, L1. unfold moveDiff. cbv beta iota zeta. ring. }
  assert (Hy2 : verticalWholeCounter (set_emitted (emitted (moveSingle p g1 s1) ++ l)
                                          (moveSingle p g1 s1)) == gs_dy g1 - gs_dy g1).
  { cbn [verticalWholeCounter set_emitted]. rewrite T4, C2, L2. unfold moveDiff. cbv beta iota zeta. ring. }
  destruct (drag_run p moves (gs_dx g1) (gs_dy g1) (gs_dx g1) (gs_dy g1) _ s'
              Hd2 T1 T2 Hx2 Hy2 Hs Hr) as [R1 R2].
  rewrite <- (last_map (fun m => gs_dx m) (map snd moves) g1), map_map.
  rewrite <- (last_map (fun m => gs_dy m) (map snd moves) g1), map_map.
  split; assumption.
Qed.

Lemma drag_counters_track_witness :
  let moves := [(oneFinger 14 10, gesture 4 0); (oneFinger 17 13, gesture 7 3)] in
  let es := EvGrant 1000 (oneFinger 10 10) :: map moveEvent ((oneFinger 10 10, gesture 0 0) :: moves) in
  doubleClickInterval demoProps <= 1000 - lastClickTime initState /\
  forallb (fun m => isSingleTouch (fst m)) ((oneFinger 10 10, gesture 0 0) :: moves) = true /\
  run demoProps es initState = Some (stateAfter demoProps es) /\
  horizontalWholeCounter (stateAfter demoProps es) == 7 /\
  verticalWholeCounter (stateAfter demoProps es) == 3.
Proof.
  cbv zeta.
  assert (Hi : doubleClickInterval demoProps <= 1000 - lastClickTime initState)
    by (vm_compute; discriminate).
  assert (Hs : forallb (fun m => isSingleTouch (fst m))
      [(oneFinger 10 10, gesture 0 0); (oneFinger 14 10, gesture 4 0);
       (oneFinger 17 13, gesture 7 3)] = true) by reflexivity.
  assert (Hr : run demoProps (EvGrant 1000 (oneFinger 10 10) :: map moveEvent
      [(oneFinger 10 10, gesture 0 0); (oneFinger 14 10, gesture 4 0);
       (oneFinger 17 13, gesture 7 3)]) initState =
    Some (stateAfter demoProps (EvGrant 1000 (oneFinger 10 10) :: map moveEvent
      [(oneFinger 10 10, gesture 0 0); (oneFinger 14 10, gesture 4 0);
       (oneFinger 17 13, gesture 7 3)]))) by (vm_compute; reflexivity).
  destruct (drag_counters_track demoProps 1000 (oneFinger 10 10) (oneFinger 10 10)
              (gesture 0 0) [(oneFinger 14 10, gesture 4 0); (oneFinger 17 13, gesture 7 3)]
              initState _ Hi Hs Hr) as [H1 H2].
  split; [exact Hi|]. split; [exact Hs|]. split; [exact Hr|].
  split; [rewrite H1 | rewrite H2]; reflexivity.
Defined.
